(* Verification development for the hhwtrade.com trading gateway:
   subscription reference counting, the CTP trade-response handler,
   the condition-order runner, and order dispatch. *)

From Stdlib Require Import ZArith QArith Qround String Ascii List Lia.
From stdpp Require Import base gmap strings list.
Import ListNotations.
Open Scope string_scope.

(* ------------------------------------------------------------------ *)
(* Go machine integers: `int` is 64-bit two's complement.             *)
(* ------------------------------------------------------------------ *)
Module GoInt.

Definition int_min : Z := - 2 ^ 63.
Definition int_max : Z := 2 ^ 63 - 1.

Definition in_int (z : Z) : Prop := (int_min <= z <= int_max)%Z.

(** Reduction of an unbounded integer into the range of Go's `int`. *)
Definition wrap64 (z : Z) : Z := ((z + 2 ^ 63) mod 2 ^ 64 - 2 ^ 63)%Z.

Definition add (a b : Z) : Z := wrap64 (a + b).
Definition sub (a b : Z) : Z := wrap64 (a - b).

End GoInt.

(* ------------------------------------------------------------------ *)
(* Errors (internal/domain: AppError)                                 *)
(* ------------------------------------------------------------------ *)
Inductive GoError :=
  | ErrBase (msg : string)
  | AppError (Code : Z) (Message : string) (Err : GoError).

Definition NewInternalError (msg : string) (err : GoError) : GoError :=
  AppError 500 msg err.

(* ------------------------------------------------------------------ *)
(* Market subscription reference counting                             *)
(*   internal/engine/subscription.go  (SubscriptionState)             *)
(*   internal/model/user.go           (MarketServiceImpl)             *)
(* ------------------------------------------------------------------ *)
Module Subs.

(** Reading a Go map at a missing key yields the zero value 0. *)
Definition get (m : gmap string Z) (k : string) : Z := default 0%Z (m !! k).

(** `m[k]++` and `m[k]--` on a `map[string]int`. *)
Definition incr (m : gmap string Z) (k : string) : gmap string Z :=
  <[k := GoInt.add (get m k) 1]> m.
Definition decr (m : gmap string Z) (k : string) : gmap string Z :=
  <[k := GoInt.sub (get m k) 1]> m.

(** SubscriptionState.AddSubscription *)
Definition AddSubscription (activeSymbols : gmap string Z) (symbol : string)
  : gmap string Z * bool :=
  let s1 := incr activeSymbols symbol in
  (s1, Z.eqb (get s1 symbol) 1).

(** SubscriptionState.RemoveSubscription *)
Definition RemoveSubscription (activeSymbols : gmap string Z) (symbol : string)
  : gmap string Z * bool :=
  if Z.ltb 0 (get activeSymbols symbol) then
    let s1 := decr activeSymbols symbol in
    if Z.eqb (get s1 symbol) 0 then (delete symbol s1, true) else (s1, false)
  else (activeSymbols, false).

(** SubscriptionState.GetActiveSymbols (Go map iteration order is
    unspecified, so the result is the key set). *)
Definition GetActiveSymbols (activeSymbols : gmap string Z) : gset string :=
  dom activeSymbols.

(** The upstream part of domain.CTPClient used by MarketServiceImpl:
    each call returns Go's `error` (None = nil). *)
Record CTPClient := {
  ctpSubscribe : string -> option GoError;
  ctpUnsubscribe : string -> option GoError;
}.

(** Upstream commands issued by a call, in order. *)
Inductive Upstream :=
  | USubscribe (instrumentID : string)
  | UUnsubscribe (instrumentID : string).

(** MarketServiceImpl.Subscribe: new counter map, upstream calls, error. *)
Definition Subscribe (cli : CTPClient) (subscriptions : gmap string Z)
    (instrumentID : string) : gmap string Z * list Upstream * option GoError :=
  let s1 := incr subscriptions instrumentID in
  let isFirst := Z.eqb (get s1 instrumentID) 1 in
  if isFirst then
    match ctpSubscribe cli instrumentID with
    | Some err =>
        (decr s1 instrumentID, [USubscribe instrumentID],
         Some (NewInternalError "failed to subscribe" err))
    | None => (s1, [USubscribe instrumentID], None)
    end
  else (s1, [], None).

(** MarketServiceImpl.Unsubscribe *)
Definition Unsubscribe (cli : CTPClient) (subscriptions : gmap string Z)
    (instrumentID : string) : gmap string Z * list Upstream * option GoError :=
  if Z.ltb 0 (get subscriptions instrumentID) then
    let s1 := decr subscriptions instrumentID in
    if Z.eqb (get s1 instrumentID) 0 then
      let s2 := delete instrumentID s1 in
      match ctpUnsubscribe cli instrumentID with
      | Some err =>
          (s2, [UUnsubscribe instrumentID],
           Some (NewInternalError "failed to unsubscribe" err))
      | None => (s2, [UUnsubscribe instrumentID], None)
      end
    else (s1, [], None)
  else (subscriptions, [], None).

(** MarketServiceImpl.GetActiveSymbols *)
Definition MS_GetActiveSymbols (subscriptions : gmap string Z) : gset string :=
  dom subscriptions.

(** MarketServiceImpl.AddExistingSubscription *)
Definition AddExistingSubscription (subscriptions : gmap string Z)
    (instrumentID : string) : gmap string Z :=
  let s1 := incr subscriptions instrumentID in
  incr s1 instrumentID.

(** A client whose calls all succeed, and one whose subscribe fails. *)
Definition okClient : CTPClient :=
  {| ctpSubscribe := fun _ => None; ctpUnsubscribe := fun _ => None |}.
Definition failingClient : CTPClient :=
  {| ctpSubscribe := fun _ => Some (ErrBase "failed to push command to redis");
     ctpUnsubscribe := fun _ => Some (ErrBase "failed to push command to redis") |}.

End Subs.

(* ------------------------------------------------------------------ *)
(* Decoded JSON values and Go string formatting                       *)
(* ------------------------------------------------------------------ *)
Module Json.

(** A value of a decoded `map[string]interface{}`.  JSON numbers decode
    to float64; they are kept as rationals (rounding and NaN are not
    modelled). *)
Inductive JValue :=
  | JString (s : string)
  | JNumber (q : Q)
  | JBool (b : bool)
  | JNull.

(** `v, _ := payload[k].(string)`: "" when missing or not a string. *)
Definition str_field (p : gmap string JValue) (k : string) : string :=
  match p !! k with Some (JString s) => s | _ => "" end.

(** `v, _ := payload[k].(float64)`: 0 when missing or not a number. *)
Definition num_field (p : gmap string JValue) (k : string) : Q :=
  match p !! k with Some (JNumber q) => q | _ => 0%Q end.

(** Go's `int(f)` truncates toward zero. *)
Definition float_to_int (q : Q) : Z :=
  if Qle_bool 0 q then Qfloor q else (- Qfloor (- q))%Z.

End Json.

Module Fmt.

Definition digit (d : Z) : ascii := ascii_of_nat (48 + Z.to_nat d).

Fixpoint digits_aux (fuel : nat) (n : Z) (acc : string) : string :=
  match fuel with
  | O => acc
  | S f =>
      let acc' := String (digit (Z.rem n 10)) acc in
      if Z.eqb (Z.quot n 10) 0 then acc' else digits_aux f (Z.quot n 10) acc'
  end.

(** Decimal digits of a non-negative Go integer (at most 19 digits). *)
Definition digits (n : Z) : string := digits_aux 20 n "".

Fixpoint zeros (k : nat) : string :=
  match k with O => "" | S k' => String "0" (zeros k') end.

Definition pad (w : nat) (s : string) : string :=
  zeros (w - String.length s) ++ s.

(** fmt's `%d`. *)
Definition fmt_d (z : Z) : string :=
  if Z.ltb z 0 then "-" ++ digits (- z) else digits z.

(** fmt's `%0<w>d`: zero padding after the sign. *)
Definition fmt_0d (w : nat) (z : Z) : string :=
  if Z.ltb z 0 then "-" ++ pad (w - 1) (digits (- z)) else pad w (digits z).

End Fmt.

(* ------------------------------------------------------------------ *)
(* internal/model/trade.go                                            *)
(* ------------------------------------------------------------------ *)
Module Model.

Definition DirectionBuy : string := "0".
Definition DirectionSell : string := "1".

Definition OffsetOpen : string := "0".
Definition OffsetClose : string := "1".
Definition OffsetCloseToday : string := "3".
Definition OffsetCloseYesterday : string := "4".

Definition OrderStatusAllTraded : string := "0".
Definition OrderStatusPartTradedQueueing : string := "1".
Definition OrderStatusPartTradedNotQueueing : string := "2".
Definition OrderStatusNoTradeQueueing : string := "3".
Definition OrderStatusNoTradeNotQueueing : string := "4".
Definition OrderStatusCanceled : string := "5".
Definition OrderStatusUnknown : string := "a".
Definition OrderStatusNotTouched : string := "b".
Definition OrderStatusTouched : string := "c".
Definition OrderStatusPending : string := "P".
Definition OrderStatusSent : string := "S".

End Model.

(** model.Order (timestamps and the Trades association omitted). *)
Module Order.
Record t := {
  ID : Z;
  UserID : string;
  InvestorID : string;
  InstrumentID : string;
  ExchangeID : string;
  OrderRef : string;
  Direction : string;
  CombOffsetFlag : string;
  LimitPrice : Q;
  VolumeTotalOriginal : Z;
  VolumeTraded : Z;
  OrderStatus : string;
  OrderSysID : string;
  StatusMsg : string;
  FrontID : Z;
  SessionID : Z;
  StrategyID : option Z;
}.

(** A column assignment of a gorm `Updates(map[string]interface{})`. *)
Inductive Column :=
  | ColOrderStatus (s : string)
  | ColOrderSysID (s : string)
  | ColStatusMsg (s : string)
  | ColVolumeTraded (z : Z)
  | ColOrderRef (s : string).

Definition set_column (o : t) (c : Column) : t :=
  match c with
  | ColOrderStatus s =>
      Build_t o.(ID) o.(UserID) o.(InvestorID) o.(InstrumentID) o.(ExchangeID)
        o.(OrderRef) o.(Direction) o.(CombOffsetFlag) o.(LimitPrice)
        o.(VolumeTotalOriginal) o.(VolumeTraded) s o.(OrderSysID) o.(StatusMsg)
        o.(FrontID) o.(SessionID) o.(StrategyID)
  | ColOrderSysID s =>
      Build_t o.(ID) o.(UserID) o.(InvestorID) o.(InstrumentID) o.(ExchangeID)
        o.(OrderRef) o.(Direction) o.(CombOffsetFlag) o.(LimitPrice)
        o.(VolumeTotalOriginal) o.(VolumeTraded) o.(OrderStatus) s o.(StatusMsg)
        o.(FrontID) o.(SessionID) o.(StrategyID)
  | ColStatusMsg s =>
      Build_t o.(ID) o.(UserID) o.(InvestorID) o.(InstrumentID) o.(ExchangeID)
        o.(OrderRef) o.(Direction) o.(CombOffsetFlag) o.(LimitPrice)
        o.(VolumeTotalOriginal) o.(VolumeTraded) o.(OrderStatus) o.(OrderSysID) s
        o.(FrontID) o.(SessionID) o.(StrategyID)
  | ColVolumeTraded z =>
      Build_t o.(ID) o.(UserID) o.(InvestorID) o.(InstrumentID) o.(ExchangeID)
        o.(OrderRef) o.(Direction) o.(CombOffsetFlag) o.(LimitPrice)
        o.(VolumeTotalOriginal) z o.(OrderStatus) o.(OrderSysID) o.(StatusMsg)
        o.(FrontID) o.(SessionID) o.(StrategyID)
  | ColOrderRef s =>
      Build_t o.(ID) o.(UserID) o.(InvestorID) o.(InstrumentID) o.(ExchangeID)
        s o.(Direction) o.(CombOffsetFlag) o.(LimitPrice)
        o.(VolumeTotalOriginal) o.(VolumeTraded) o.(OrderStatus) o.(OrderSysID)
        o.(StatusMsg) o.(FrontID) o.(SessionID) o.(StrategyID)
  end.

Definition apply_updates (cols : list Column) (o : t) : t :=
  fold_left set_column cols o.

(** An order literal: every field not given is Go's zero value. *)
Definition zero : t :=
  Build_t 0 "" "" "" "" "" "" "" 0%Q 0 0 "" "" "" 0 0 None.

End Order.

(** model.Trade (timestamps omitted). *)
Module Trade.
Record t := {
  OrderID : Z;
  OrderRef : string;
  OrderSysID : string;
  TradeID : string;
  InstrumentID : string;
  Direction : string;
  OffsetFlag : string;
  Price : Q;
  Volume : Z;
  StrategyID : option Z;
}.
End Trade.

(** model.OrderLog (timestamp omitted). *)
Module OrderLog.
Record t := {
  OrderID : Z;
  OldStatus : string;
  NewStatus : string;
  Message : string;
}.
End OrderLog.

(** model.Position (TradingDay and UpdatedAt omitted). *)
Module Position.
Record t := {
  UserID : string;
  InstrumentID : string;
  PosiDirection : string;
  HedgeFlag : string;
  Position : Z;
  YdPosition : Z;
  TodayPosition : Z;
  PositionCost : Q;
  AveragePrice : Q;
}.

(** Primary key (UserID, InstrumentID, PosiDirection, HedgeFlag). *)
Definition same_key (a b : t) : bool :=
  String.eqb a.(UserID) b.(UserID) && String.eqb a.(InstrumentID) b.(InstrumentID)
  && String.eqb a.(PosiDirection) b.(PosiDirection)
  && String.eqb a.(HedgeFlag) b.(HedgeFlag).
End Position.

(* ------------------------------------------------------------------ *)
(* internal/ctp/handler.go: the trade-response processor              *)
(* ------------------------------------------------------------------ *)
Module Handler.
Import Json.

(** `resp.Payload.(map[string]interface{})` succeeds for PMap only. *)
Inductive RespPayload :=
  | PMap (m : gmap string JValue)
  | POther.

(** ctp.TradeResponse *)
Record TradeResponse := {
  Type_ : string;  (* Go field `Type` *)
  Payload : RespPayload;
  RequestID : string;
}.

(** The tables the handler touches, each in primary-key order, and the
    messages handed to `notifier.BroadcastToAll`. *)
Record State := {
  orders : list Order.t;
  trades : list Trade.t;
  orderLogs : list OrderLog.t;
  positions : list Position.t;
  notifier : bool;
  broadcasts : list TradeResponse;
}.

Definition with_orders (st : State) (os : list Order.t) : State :=
  Build_State os st.(trades) st.(orderLogs) st.(positions) st.(notifier) st.(broadcasts).
Definition with_trades (st : State) (ts : list Trade.t) : State :=
  Build_State st.(orders) ts st.(orderLogs) st.(positions) st.(notifier) st.(broadcasts).
Definition with_orderLogs (st : State) (ls : list OrderLog.t) : State :=
  Build_State st.(orders) st.(trades) ls st.(positions) st.(notifier) st.(broadcasts).
Definition with_positions (st : State) (ps : list Position.t) : State :=
  Build_State st.(orders) st.(trades) st.(orderLogs) ps st.(notifier) st.(broadcasts).
Definition with_broadcasts (st : State) (bs : list TradeResponse) : State :=
  Build_State st.(orders) st.(trades) st.(orderLogs) st.(positions) st.(notifier) bs.

(** `db.Where("order_ref = ?", ref).First(&order)`: first row by key. *)
Definition find_order_by_ref (os : list Order.t) (ref : string) : option Order.t :=
  find (fun o => String.eqb o.(Order.OrderRef) ref) os.

(** `db.Model(&order).Updates(cols)`: the row(s) with order.ID. *)
Definition update_order (st : State) (id : Z) (cols : list Order.Column) : State :=
  with_orders st
    (map (fun o => if Z.eqb o.(Order.ID) id then Order.apply_updates cols o else o)
       st.(orders)).

(** `db.Create(&OrderLog{...})` *)
Definition create_log (st : State) (l : OrderLog.t) : State :=
  with_orderLogs st (st.(orderLogs) ++ [l])%list.

(** `db.Create(&Trade{...})`: the unique index on TradeID rejects a
    duplicate, and the handler ignores the error. *)
Definition create_trade (st : State) (tr : Trade.t) : State :=
  if existsb (fun x => String.eqb x.(Trade.TradeID) tr.(Trade.TradeID)) st.(trades)
  then st
  else with_trades st (st.(trades) ++ [tr])%list.

(** `db.Save(&pos)`: upsert on the primary key. *)
Definition save_position (st : State) (p : Position.t) : State :=
  if existsb (Position.same_key p) st.(positions)
  then with_positions st
         (map (fun x => if Position.same_key p x then p else x) st.(positions))
  else with_positions st (st.(positions) ++ [p])%list.

(** Handler.notifyUser *)
Definition notifyUser (st : State) (userID : string) (data : TradeResponse) : State :=
  if st.(notifier) then with_broadcasts st (st.(broadcasts) ++ [data])%list else st.

(** Handler.handleRtnOrder *)
Definition handleRtnOrder (st : State) (resp : TradeResponse)
    (payload : gmap string JValue) : State :=
  let statusStr := str_field payload "OrderStatus" in
  let orderSysID := str_field payload "OrderSysID" in
  let errorMsg := str_field payload "StatusMsg" in
  match find_order_by_ref st.(orders) resp.(RequestID) with
  | Some order =>
      let st1 := create_log st
        {| OrderLog.OrderID := order.(Order.ID);
           OrderLog.OldStatus := order.(Order.OrderStatus);
           OrderLog.NewStatus := statusStr;
           OrderLog.Message := errorMsg |} in
      let updates :=
        ((if negb (String.eqb statusStr "") then [Order.ColOrderStatus statusStr] else [])
         ++ (if negb (String.eqb orderSysID "") then [Order.ColOrderSysID orderSysID] else [])
         ++ (if negb (String.eqb errorMsg "") then [Order.ColStatusMsg errorMsg] else []))%list in
      if Nat.ltb 0 (length updates) then
        let st2 := update_order st1 order.(Order.ID) updates in
        notifyUser st2 order.(Order.UserID) resp
      else st1
  | None => st
  end.

(** The position side of an order: "2" long, "3" short. *)
Definition posiDirOf (order : Order.t) : string :=
  if String.eqb order.(Order.Direction) Model.DirectionBuy then
    (if negb (String.eqb order.(Order.CombOffsetFlag) Model.OffsetOpen) then "3" else "2")
  else
    (if String.eqb order.(Order.CombOffsetFlag) Model.OffsetOpen then "3" else "2").

(** The row created by updatePosition when none exists and the offset is open. *)
Definition newPosition (order : Order.t) (posiDir : string) (tradeVol tradePrice : Q)
  : Position.t :=
  {| Position.UserID := order.(Order.UserID);
     Position.InstrumentID := order.(Order.InstrumentID);
     Position.PosiDirection := posiDir;
     Position.HedgeFlag := "1";
     Position.Position := float_to_int tradeVol;
     Position.YdPosition := 0;
     Position.TodayPosition := float_to_int tradeVol;
     Position.PositionCost := tradePrice * tradeVol;
     Position.AveragePrice := tradePrice |}%Q.

(** The row after updatePosition adjusts an existing position. *)
Definition adjustPosition (pos : Position.t) (order : Order.t) (tradeVol tradePrice : Q)
  : Position.t :=
  let v := float_to_int tradeVol in
  if String.eqb order.(Order.CombOffsetFlag) Model.OffsetOpen then
    let newTotal := GoInt.add pos.(Position.Position) v in
    let cost := (pos.(Position.PositionCost) + tradePrice * tradeVol)%Q in
    let avg := if Z.ltb 0 newTotal then (cost / inject_Z newTotal)%Q
               else pos.(Position.AveragePrice) in
    {| Position.UserID := pos.(Position.UserID);
       Position.InstrumentID := pos.(Position.InstrumentID);
       Position.PosiDirection := pos.(Position.PosiDirection);
       Position.HedgeFlag := pos.(Position.HedgeFlag);
       Position.Position := newTotal;
       Position.YdPosition := pos.(Position.YdPosition);
       Position.TodayPosition := GoInt.add pos.(Position.TodayPosition) v;
       Position.PositionCost := cost;
       Position.AveragePrice := avg |}
  else
    let p1 := GoInt.sub pos.(Position.Position) v in
    let total := if Z.ltb p1 0 then 0%Z else p1 in
    let td := if String.eqb order.(Order.CombOffsetFlag) Model.OffsetCloseToday
              then GoInt.sub pos.(Position.TodayPosition) v
              else pos.(Position.TodayPosition) in
    let yd := if String.eqb order.(Order.CombOffsetFlag) Model.OffsetCloseToday
              then pos.(Position.YdPosition)
              else GoInt.sub pos.(Position.YdPosition) v in
    {| Position.UserID := pos.(Position.UserID);
       Position.InstrumentID := pos.(Position.InstrumentID);
       Position.PosiDirection := pos.(Position.PosiDirection);
       Position.HedgeFlag := pos.(Position.HedgeFlag);
       Position.Position := total;
       Position.YdPosition := if Z.ltb yd 0 then 0%Z else yd;
       Position.TodayPosition := if Z.ltb td 0 then 0%Z else td;
       Position.PositionCost := pos.(Position.PositionCost);
       Position.AveragePrice := pos.(Position.AveragePrice) |}.

(** Handler.updatePosition *)
Definition updatePosition (st : State) (order : Order.t)
    (tradePayload : gmap string JValue) : State :=
  let posiDir := posiDirOf order in
  let found := find (fun p =>
      String.eqb p.(Position.UserID) order.(Order.UserID)
      && String.eqb p.(Position.InstrumentID) order.(Order.InstrumentID)
      && String.eqb p.(Position.PosiDirection) posiDir) st.(positions) in
  let tradeVol := num_field tradePayload "Volume" in
  let tradePrice := num_field tradePayload "Price" in
  match found with
  | None =>
      if String.eqb order.(Order.CombOffsetFlag) Model.OffsetOpen
      then with_positions st (st.(positions) ++ [newPosition order posiDir tradeVol tradePrice])%list
      else st
  | Some pos => save_position st (adjustPosition pos order tradeVol tradePrice)
  end.

(** Handler.handleRtnTrade *)
Definition handleRtnTrade (st : State) (resp : TradeResponse)
    (payload : gmap string JValue) : State :=
  match find_order_by_ref st.(orders) resp.(RequestID) with
  | Some order =>
      let tradeVol := num_field payload "Volume" in
      let price := num_field payload "Price" in
      let tradeID := str_field payload "TradeID" in
      let st1 := create_trade st
        {| Trade.OrderID := order.(Order.ID);
           Trade.OrderRef := order.(Order.OrderRef);
           Trade.OrderSysID := order.(Order.OrderSysID);
           Trade.TradeID := tradeID;
           Trade.InstrumentID := order.(Order.InstrumentID);
           Trade.Direction := order.(Order.Direction);
           Trade.OffsetFlag := order.(Order.CombOffsetFlag);
           Trade.Price := price;
           Trade.Volume := float_to_int tradeVol;
           Trade.StrategyID := order.(Order.StrategyID) |} in
      let newFilledVol := GoInt.add order.(Order.VolumeTraded) (float_to_int tradeVol) in
      let status :=
        if Z.leb order.(Order.VolumeTotalOriginal) newFilledVol
        then Model.OrderStatusAllTraded else Model.OrderStatusPartTradedQueueing in
      let st2 := update_order st1 order.(Order.ID)
                   [Order.ColVolumeTraded newFilledVol; Order.ColOrderStatus status] in
      let st3 := updatePosition st2 order payload in
      notifyUser st3 order.(Order.UserID) resp
  | None => st
  end.

(** Handler.handleErrOrder *)
Definition handleErrOrder (st : State) (resp : TradeResponse)
    (payload : gmap string JValue) : State :=
  let errorMsg := str_field payload "ErrorMsg" in
  match find_order_by_ref st.(orders) resp.(RequestID) with
  | Some order =>
      let st1 := create_log st
        {| OrderLog.OrderID := order.(Order.ID);
           OrderLog.OldStatus := order.(Order.OrderStatus);
           OrderLog.NewStatus := Model.OrderStatusNoTradeNotQueueing;
           OrderLog.Message := errorMsg |} in
      let st2 := update_order st1 order.(Order.ID)
        [Order.ColOrderStatus Model.OrderStatusNoTradeNotQueueing;
         Order.ColStatusMsg errorMsg] in
      notifyUser st2 order.(Order.UserID) resp
  | None => st
  end.

(** Handler.ProcessResponse.  The QRY_POS_RSP and QRY_INSTRUMENT_RSP
    branches re-decode each list element through encoding/json and save
    it; they change no order and are left out here (identity). *)
Definition ProcessResponse (st : State) (resp : TradeResponse) : State :=
  match resp.(Payload) with
  | POther => st
  | PMap payload =>
      if String.eqb resp.(Type_) "RTN_ORDER" then handleRtnOrder st resp payload
      else if String.eqb resp.(Type_) "RTN_TRADE" then handleRtnTrade st resp payload
      else if String.eqb resp.(Type_) "ERR_ORDER" then handleErrOrder st resp payload
      else st
  end.

End Handler.

(* ------------------------------------------------------------------ *)
(* internal/strategies/runner.go: the condition-order runner          *)
(* ------------------------------------------------------------------ *)
Module Runner.

(** model.ConditionOrderConfig (float64 prices as rationals). *)
Record ConditionOrderConfig := {
  TriggerPrice : Q;
  Operator : string;
  Action : string;
  Volume : Z;
}.

Record ConditionOrderRunner := {
  strategyID : Z;
  instrumentID : string;
  cfg : ConditionOrderConfig;
  triggered : bool;
}.

(** NewConditionOrderRunner, once the config has been decoded. *)
Definition NewConditionOrderRunner (id : Z) (inst : string) (c : ConditionOrderConfig)
  : ConditionOrderRunner :=
  {| strategyID := id; instrumentID := inst; cfg := c; triggered := false |}.

(** Strict comparison of rationals (float64 `<`). *)
Definition Qlt_bool (x y : Q) : bool :=
  Z.ltb (Qnum x * Zpos (Qden y)) (Qnum y * Zpos (Qden x)).

(** Step 2 of OnTick: the operator switch. *)
Definition condition_match (c : ConditionOrderConfig) (price : Q) : bool :=
  if String.eqb c.(Operator) ">" then Qlt_bool c.(TriggerPrice) price
  else if String.eqb c.(Operator) ">=" then Qle_bool c.(TriggerPrice) price
  else if String.eqb c.(Operator) "<" then Qlt_bool price c.(TriggerPrice)
  else if String.eqb c.(Operator) "<=" then Qle_bool price c.(TriggerPrice)
  else false.

(** The Action switch: (direction, offset), defaulting to (buy, open). *)
Definition action_direction_offset (action : string) : string * string :=
  if String.eqb action "open_long" then (Model.DirectionBuy, Model.OffsetOpen)
  else if String.eqb action "close_long" then (Model.DirectionSell, Model.OffsetClose)
  else if String.eqb action "open_short" then (Model.DirectionSell, Model.OffsetOpen)
  else if String.eqb action "close_short" then (Model.DirectionBuy, Model.OffsetClose)
  else (Model.DirectionBuy, Model.OffsetOpen).

(** ConditionOrderRunner.OnTick; `nowUnix` is `time.Now().Unix()` and
    the runner is returned with its (pointer-mutated) flag. *)
Definition OnTick (r : ConditionOrderRunner) (nowUnix : Z) (price : Q)
  : ConditionOrderRunner * option Order.t :=
  if r.(triggered) then (r, None)
  else if condition_match r.(cfg) price then
    let r' := {| strategyID := r.(strategyID); instrumentID := r.(instrumentID);
                 cfg := r.(cfg); triggered := true |} in
    let '(direction, offset) := action_direction_offset r.(cfg).(Action) in
    let orderRef := ("st" ++ Fmt.fmt_0d 4 r.(strategyID)
                     ++ Fmt.fmt_d (Z.rem nowUnix 100000)) in
    (r', Some {| Order.ID := 0; Order.UserID := ""; Order.InvestorID := "";
                 Order.InstrumentID := r.(instrumentID); Order.ExchangeID := "";
                 Order.OrderRef := orderRef; Order.Direction := direction;
                 Order.CombOffsetFlag := offset; Order.LimitPrice := price;
                 Order.VolumeTotalOriginal := r.(cfg).(Volume);
                 Order.VolumeTraded := 0; Order.OrderStatus := "";
                 Order.OrderSysID := ""; Order.StatusMsg := "";
                 Order.FrontID := 0; Order.SessionID := 0;
                 Order.StrategyID := Some r.(strategyID) |})
  else (r, None).

(** The same runner fed a stream of (time, price) ticks, collecting the
    emitted orders as Executor.OnMarketData does. *)
Fixpoint run_ticks (r : ConditionOrderRunner) (ticks : list (Z * Q))
  : ConditionOrderRunner * list Order.t :=
  match ticks with
  | [] => (r, [])
  | (t, p) :: rest =>
      let '(r1, o) := OnTick r t p in
      let '(r2, os) := run_ticks r1 rest in
      (r2, (match o with Some x => [x] | None => [] end) ++ os)%list
  end.

(** The spec's action table (section 4.6), for comparison with the code. *)
Definition spec_action_mapping (action : string) : option (string * string) :=
  if String.eqb action "open_long" then Some ("0", "0")
  else if String.eqb action "close_long" then Some ("1", "1")
  else if String.eqb action "open_short" then Some ("1", "0")
  else if String.eqb action "close_short" then Some ("0", "1")
  else None.

End Runner.

(* ------------------------------------------------------------------ *)
(* Order dispatch: ctp.Client (part_015) and TradingServiceImpl       *)
(* (part_019)                                                          *)
(* ------------------------------------------------------------------ *)
Module Dispatch.
Import Json.

(** ctp.Command *)
Record Command := {
  Type_ : string;  (* Go field `Type` *)
  RequestID : string;
  Payload : gmap string JValue;
}.

(** Client.SendCommand: LPUSH onto ctp_cmd_queue (the head of the list
    is the left end); `redisOk` is the outcome of the broker write. *)
Definition SendCommand (queue : list Command) (redisOk : bool) (cmd : Command)
  : list Command * option GoError :=
  if redisOk then (cmd :: queue, None)
  else (queue, Some (ErrBase "failed to push command to redis")).

(** The payload map built by Client.InsertOrder. *)
Definition insertOrderPayload (order : Order.t) : gmap string JValue :=
  let payload : gmap string JValue := list_to_map
    [("InstrumentID", JString order.(Order.InstrumentID));
     ("ExchangeID", JString order.(Order.ExchangeID));
     ("OrderRef", JString order.(Order.OrderRef));
     ("Direction", JString order.(Order.Direction));
     ("OffsetFlag", JString order.(Order.CombOffsetFlag));
     ("Price", JNumber order.(Order.LimitPrice));
     ("Volume", JNumber (inject_Z order.(Order.VolumeTotalOriginal)));
     ("OrderPriceType", JString "LimitPrice");
     ("TimeCondition", JString "GFD");
     ("UserID", JString order.(Order.UserID));
     ("InvestorID", JString order.(Order.InvestorID))] in
  if String.eqb order.(Order.InvestorID) ""
  then <["InvestorID" := JString order.(Order.UserID)]> payload
  else payload.

(** Client.InsertOrder *)
Definition InsertOrder (redisOk : bool) (queue : list Command) (order : Order.t)
  : list Command * option GoError :=
  SendCommand queue redisOk
    {| Type_ := "INSERT_ORDER"; RequestID := order.(Order.OrderRef);
       Payload := insertOrderPayload order |}.

(** The background work a call leaves behind (the `go func()` body). *)
Inductive Task := PersistOrder (o : Order.t).

Record SvcState := {
  cmdQueue : list Command;
  dbOrders : list Order.t;
  goroutines : list Task;
  logs : list string;
}.

(** `fmt.Sprintf("%06d%06d", now.Unix() % 1000000, now.Nanosecond() / 1000)` *)
Definition orderRefFromClock (unixSec nanos : Z) : string :=
  Fmt.fmt_0d 6 (Z.rem unixSec 1000000) ++ Fmt.fmt_0d 6 (Z.quot nanos 1000).

(** Steps 1 and 2 of PlaceOrder: stamp an OrderRef if empty, set SENT. *)
Definition prepareOrder (unixSec nanos : Z) (order : Order.t) : Order.t :=
  let order1 := if String.eqb order.(Order.OrderRef) ""
                then Order.set_column order (Order.ColOrderRef (orderRefFromClock unixSec nanos))
                else order in
  Order.set_column order1 (Order.ColOrderStatus Model.OrderStatusSent).

(** TradingServiceImpl.PlaceOrder over any domain.CTPClienter's
    InsertOrder (`insert`).  Returns the state, the order as mutated
    through the pointer, and the error. *)
Definition PlaceOrder
    (insert : list Command -> Order.t -> list Command * option GoError)
    (unixSec nanos : Z) (st : SvcState) (order : Order.t)
  : SvcState * Order.t * option GoError :=
  let order2 := prepareOrder unixSec nanos order in
  let '(q, err) := insert st.(cmdQueue) order2 in
  match err with
  | Some e =>
      ({| cmdQueue := q; dbOrders := st.(dbOrders); goroutines := st.(goroutines);
          logs := st.(logs) |},
       order2, Some (NewInternalError "failed to send order to gateway" e))
  | None =>
      ({| cmdQueue := q; dbOrders := st.(dbOrders);
          goroutines := (st.(goroutines) ++ [PersistOrder order2])%list;
          logs := (st.(logs)
                   ++ [("TradingService: Order " ++ order2.(Order.OrderRef) ++ " sent to CTP")%string])%list |},
       order2, None)
  end.

(** Running one pending goroutine; `dbOk` is the outcome of db.Create. *)
Definition run_goroutine (dbOk : bool) (st : SvcState) : SvcState :=
  match st.(goroutines) with
  | [] => st
  | PersistOrder o :: rest =>
      if dbOk then
        {| cmdQueue := st.(cmdQueue); dbOrders := (st.(dbOrders) ++ [o])%list;
           goroutines := rest; logs := st.(logs) |}
      else
        {| cmdQueue := st.(cmdQueue); dbOrders := st.(dbOrders); goroutines := rest;
           logs := (st.(logs)
                    ++ [("TradingService: Failed to save order " ++ o.(Order.OrderRef) ++ " to DB")%string])%list |}
  end.

End Dispatch.

(* ------------------------------------------------------------------ *)
(* Sample inputs used by the concrete statements below                *)
(* ------------------------------------------------------------------ *)
Module Samples.
Import Handler Json.

(** An order on rb2505 with reference "000001000001" and primary key 1. *)
Definition order_rb (status : string) (traded orig : Z) (dir off : string) : Order.t :=
  {| Order.ID := 1; Order.UserID := "u1"; Order.InvestorID := "u1";
     Order.InstrumentID := "rb2505"; Order.ExchangeID := "SHFE";
     Order.OrderRef := "000001000001"; Order.Direction := dir;
     Order.CombOffsetFlag := off; Order.LimitPrice := 3000%Q;
     Order.VolumeTotalOriginal := orig; Order.VolumeTraded := traded;
     Order.OrderStatus := status; Order.OrderSysID := "sys1"; Order.StatusMsg := "";
     Order.FrontID := 1; Order.SessionID := 1; Order.StrategyID := None |}.

(** A long rb2505 position of user u1. *)
Definition long_rb (total yd today : Z) : Position.t :=
  {| Position.UserID := "u1"; Position.InstrumentID := "rb2505";
     Position.PosiDirection := "2"; Position.HedgeFlag := "1";
     Position.Position := total; Position.YdPosition := yd;
     Position.TodayPosition := today; Position.PositionCost := 9000%Q;
     Position.AveragePrice := 3000%Q |}.

Definition state_with (os : list Order.t) (ps : list Position.t) : State :=
  {| orders := os; trades := []; orderLogs := []; positions := ps;
     notifier := true; broadcasts := [] |}.

(** A response from the CTP core for reference "000001000001". *)
Definition rtn (ty : string) (fields : list (string * JValue)) : TradeResponse :=
  {| Type_ := ty; Payload := PMap (list_to_map fields); RequestID := "000001000001" |}.

End Samples.

(* ------------------------------------------------------------------ *)
(* internal/domain errors (handler.go, part "package domain")         *)
(* ------------------------------------------------------------------ *)
Module Domain.

(** The sentinel errors used as `Err` of an AppError. *)
Definition ErrNotFound : GoError := ErrBase "resource not found".
Definition ErrOrderTerminal : GoError := ErrBase "order already in terminal state".

Definition NewNotFoundError (msg : string) : GoError := AppError 404 msg ErrNotFound.

End Domain.

(* ------------------------------------------------------------------ *)
(* ctp.Client commands (part_015)                                      *)
(* ------------------------------------------------------------------ *)
Module Client.
Import Json Dispatch.

(** Client.Subscribe's command; `stamp` is
    `time.Now().Format("20060102150405")`. *)
Definition SubscribeCmd (instrumentID stamp : string) : Command :=
  {| Type_ := "SUBSCRIBE";
     Payload := {["InstrumentID" := JString instrumentID]};
     RequestID := ("sub-" ++ instrumentID ++ "-" ++ stamp)%string |}.

(** Client.Unsubscribe's command. *)
Definition UnsubscribeCmd (instrumentID stamp : string) : Command :=
  {| Type_ := "UNSUBSCRIBE";
     Payload := {["InstrumentID" := JString instrumentID]};
     RequestID := ("unsub-" ++ instrumentID ++ "-" ++ stamp)%string |}.

(** Client.CancelOrder's command (FrontID and SessionID are Go ints). *)
Definition CancelOrderCmd (order : Order.t) : Command :=
  {| Type_ := "CANCEL_ORDER";
     Payload := list_to_map
       [("InstrumentID", JString order.(Order.InstrumentID));
        ("OrderRef", JString order.(Order.OrderRef));
        ("ExchangeID", JString order.(Order.ExchangeID));
        ("FrontID", JNumber (inject_Z order.(Order.FrontID)));
        ("SessionID", JNumber (inject_Z order.(Order.SessionID)));
        ("ActionFlag", JString "0")];
     RequestID := ("cancel-" ++ order.(Order.OrderRef))%string |}.

Definition Subscribe (redisOk : bool) (stamp : string) (queue : list Command)
    (instrumentID : string) : list Command * option GoError :=
  SendCommand queue redisOk (SubscribeCmd instrumentID stamp).

Definition Unsubscribe (redisOk : bool) (stamp : string) (queue : list Command)
    (instrumentID : string) : list Command * option GoError :=
  SendCommand queue redisOk (UnsubscribeCmd instrumentID stamp).

Definition CancelOrder (redisOk : bool) (queue : list Command) (order : Order.t)
  : list Command * option GoError :=
  SendCommand queue redisOk (CancelOrderCmd order).

End Client.

(* ------------------------------------------------------------------ *)
(* TradingServiceImpl.CancelOrder (part_019)                           *)
(* ------------------------------------------------------------------ *)
Module Trading.
Import Dispatch.

(** `db.First(&order, orderID)`: the row with that primary key. *)
Definition first_by_id (db : list Order.t) (orderID : Z) : option Order.t :=
  find (fun o => Z.eqb o.(Order.ID) orderID) db.

(** TradingServiceImpl.CancelOrder over any domain.CTPClienter's
    CancelOrder (`cancel`), acting on the command queue. *)
Definition CancelOrder
    (cancel : list Command -> Order.t -> list Command * option GoError)
    (db : list Order.t) (queue : list Command) (orderID : Z)
  : list Command * option GoError :=
  match first_by_id db orderID with
  | None => (queue, Some (Domain.NewNotFoundError "order not found"))
  | Some order =>
      if String.eqb order.(Order.OrderStatus) Model.OrderStatusAllTraded
         || String.eqb order.(Order.OrderStatus) Model.OrderStatusCanceled
         || String.eqb order.(Order.OrderStatus) Model.OrderStatusNoTradeNotQueueing
      then (queue, Some (AppError 400 "order already in terminal state" Domain.ErrOrderTerminal))
      else
        let '(q, err) := cancel queue order in
        match err with
        | Some e => (q, Some (NewInternalError "failed to send cancel command" e))
        | None => (q, None)
        end
  end.

End Trading.

(* ------------------------------------------------------------------ *)
(* MarketServiceImpl.ResubscribeAll (internal/model/user.go), the      *)
(* startup restore (internal/service/subscription.go) and the          *)
(* subscription loop of Engine.Start (part_016)                        *)
(* ------------------------------------------------------------------ *)
Module Boot.
Import Subs.

(** The loop of ResubscribeAll over the map entries in iteration order
    `iter`: upstream calls and log lines; errors are logged and skipped. *)
Fixpoint resubscribe_loop (cli : CTPClient) (iter : list (string * Z))
  : list Upstream * list string :=
  match iter with
  | [] => ([], [])
  | (instrumentID, count) :: rest =>
      let '(ups, logs) := resubscribe_loop cli rest in
      if Z.ltb 0 count then
        match ctpSubscribe cli instrumentID with
        | Some _ =>
            (USubscribe instrumentID :: ups,
             ("MarketService: Failed to re-subscribe to " ++ instrumentID)%string :: logs)
        | None => (USubscribe instrumentID :: ups, logs)
        end
      else (ups, logs)
  end.

(** MarketServiceImpl.ResubscribeAll: the map is only read. *)
Definition ResubscribeAll (cli : CTPClient) (iter : list (string * Z))
  : list Upstream * list string * option GoError :=
  let '(ups, logs) := resubscribe_loop cli iter in (ups, logs, None).

(** `for i := 0; i < n; i++ { AddExistingSubscription(inst) }` *)
Fixpoint add_existing_n (n : nat) (subs : gmap string Z) (inst : string) : gmap string Z :=
  match n with
  | O => subs
  | S n' => add_existing_n n' (AddExistingSubscription subs inst) inst
  end.

(** Step 3 of RestoreSubscriptions over the grouped (InstrumentID, Count)
    rows; a failed Subscribe is logged. *)
Fixpoint restore_loop (cli : CTPClient) (results : list (string * Z))
    (subs : gmap string Z) : gmap string Z * list Upstream :=
  match results with
  | [] => (subs, [])
  | (inst, count) :: rest =>
      let s1 := add_existing_n (Z.to_nat count) subs inst in
      let '(s2, ups, _) := Subscribe cli s1 inst in
      let '(s3, ups') := restore_loop cli rest s2 in
      (s3, ups ++ ups')%list
  end.

(** SubscriptionServiceImpl.RestoreSubscriptions.  The two queries are
    given by their results (`inl` = the gorm error); `market` is the
    MarketService, None when nil. *)
Definition RestoreSubscriptions (market : option CTPClient)
    (distinct : GoError + list string) (grouped : GoError + list (string * Z))
    (subs : gmap string Z) : gmap string Z * list Upstream * option GoError :=
  match distinct with
  | inl e => (subs, [], Some (NewInternalError "failed to fetch distinct subscriptions" e))
  | inr instrumentIDs =>
      if Nat.eqb (length instrumentIDs) 0 then (subs, [], None)
      else match grouped with
           | inl e => (subs, [], Some (NewInternalError "failed to count subscriptions" e))
           | inr results =>
               match market with
               | None => (subs, [], None)
               | Some cli => let '(s, ups) := restore_loop cli results subs in (s, ups, None)
               end
           end
  end.

(** Step 2 of Engine.Start over the strategy symbols. *)
Fixpoint start_subscribe (cli : CTPClient) (symbols : list string) (subs : gmap string Z)
  : gmap string Z * list Upstream :=
  match symbols with
  | [] => (subs, [])
  | symbol :: rest =>
      let s1 := AddExistingSubscription subs symbol in
      let '(s2, ups, _) := Subscribe cli s1 symbol in
      let '(s3, ups') := start_subscribe cli rest s2 in
      (s3, ups ++ ups')%list
  end.

End Boot.

(* ------------------------------------------------------------------ *)
(* SubscriptionServiceImpl.AddSubscription / RemoveSubscription        *)
(* (internal/service/subscription.go)                                  *)
(* ------------------------------------------------------------------ *)
Module SubSvc.
Import Subs.

(** A subscription row (ID, Sorter and CreatedAt omitted); (UserID,
    InstrumentID) is a unique index. *)
Record Row := {
  rUserID : string;
  rInstrumentID : string;
  rExchangeID : string;
}.

(** Notifier calls: SubscribeUser (true) / UnsubscribeUser (false). *)
Record SvcState := {
  rows : list Row;
  counters : gmap string Z;      (* MarketServiceImpl.subscriptions *)
  upstream : list Upstream;      (* calls made by MarketServiceImpl *)
  wsRoutes : list (bool * string * string);
}.

Definition same_user_inst (u i : string) (r : Row) : bool :=
  String.eqb r.(rUserID) u && String.eqb r.(rInstrumentID) i.

(** The error gorm returns for a row violating idx_user_inst. *)
Definition ErrDuplicate : GoError := ErrBase "duplicate key value violates unique constraint".

(** SubscriptionServiceImpl.AddSubscription with a non-nil notifier
    and MarketService. *)
Definition AddSubscription (cli : CTPClient) (st : SvcState)
    (userID instrumentID exchangeID : string) : SvcState * option Row * option GoError :=
  let sub := {| rUserID := userID; rInstrumentID := instrumentID; rExchangeID := exchangeID |} in
  if existsb (same_user_inst userID instrumentID) st.(rows)
  then (st, None, Some (NewInternalError "failed to add subscription" ErrDuplicate))
  else
    let '(c, ups, _) := Subs.Subscribe cli st.(counters) instrumentID in
    ({| rows := (st.(rows) ++ [sub])%list; counters := c;
        upstream := (st.(upstream) ++ ups)%list;
        wsRoutes := (st.(wsRoutes) ++ [(true, userID, instrumentID)])%list |},
     Some sub, None).

(** SubscriptionServiceImpl.RemoveSubscription with a non-nil notifier
    and MarketService. *)
Definition RemoveSubscription (cli : CTPClient) (st : SvcState)
    (userID instrumentID : string) : SvcState * option GoError :=
  let kept := List.filter (fun r => negb (same_user_inst userID instrumentID r)) st.(rows) in
  let rowsAffected := (length st.(rows) - length kept)%nat in
  if Nat.eqb rowsAffected 0 then (st, Some (Domain.NewNotFoundError "subscription not found"))
  else
    let '(c, ups, _) := Subs.Unsubscribe cli st.(counters) instrumentID in
    ({| rows := kept; counters := c; upstream := (st.(upstream) ++ ups)%list;
        wsRoutes := (st.(wsRoutes) ++ [(false, userID, instrumentID)])%list |}, None).


End SubSvc.

(* ------------------------------------------------------------------ *)
(* internal/strategies/executor.go: the strategy executor              *)
(* ------------------------------------------------------------------ *)
Module Exec.
Import Runner.



(** Executor.runners: Symbol -> runners (pointers, updated in place). *)
Definition Executor := gmap string (list ConditionOrderRunner).




(** The runner loop of OnMarketData (one clock reading per call). *)
Fixpoint tick_all (rs : list ConditionOrderRunner) (nowUnix : Z) (price : Q)
  : list ConditionOrderRunner * list Order.t :=
  match rs with
  | [] => ([], [])
  | r :: rest =>
      let '(r', o) := OnTick r nowUnix price in
      let '(rest', os) := tick_all rest nowUnix price in
      (r' :: rest', (match o with Some x => [x] | None => [] end) ++ os)%list
  end.

(** Executor.OnMarketData *)
Definition OnMarketData (ex : Executor) (symbol : string) (nowUnix : Z) (price : Q)
  : Executor * list Order.t :=
  match ex !! symbol with
  | None | Some [] => (ex, [])
  | Some runners =>
      let '(runners', commands) := tick_all runners nowUnix price in
      (<[symbol := runners']> ex, commands)
  end.

(** Executor.GetSymbols (map iteration order unspecified). *)
Definition GetSymbols (ex : Executor) : gset string := dom ex.

(** A stream of (symbol, time, price) market data fed to OnMarketData. *)
Fixpoint feed (ex : Executor) (ticks : list (string * Z * Q)) : Executor * list Order.t :=
  match ticks with
  | [] => (ex, [])
  | (sym, t, p) :: rest =>
      let '(ex1, os) := OnMarketData ex sym t p in
      let '(ex2, os') := feed ex1 rest in
      (ex2, os ++ os')%list
  end.

(** The number of runners that have not fired yet. *)
Definition fresh (rs : list ConditionOrderRunner) : nat :=
  length (List.filter (fun r => negb r.(triggered)) rs).
Definition fresh_count (ex : Executor) : nat :=
  sum_list_with (fun kv => fresh kv.2) (map_to_list ex).

End Exec.

(* ================================================================== *)
(* Proofs                                                             *)
(* ================================================================== *)

Module GoIntFacts.
Import GoInt.

Lemma wrap64_id (z : Z) : in_int z -> wrap64 z = z.
Proof.
  unfold in_int, int_min, int_max, wrap64. intros Hz.
  rewrite Z.mod_small; lia.
Qed.

Lemma add_small (a b : Z) : in_int (a + b) -> add a b = (a + b)%Z.
Proof. apply wrap64_id. Qed.

Lemma sub_small (a b : Z) : in_int (a - b) -> sub a b = (a - b)%Z.
Proof. apply wrap64_id. Qed.

(** `c + 1 == 1` after wrap-around exactly when c was 0. *)
Lemma add_one_eqb (c : Z) : in_int c -> Z.eqb (add c 1) 1 = Z.eqb c 0.
Proof.
  intros Hc. destruct (Z.eq_dec c int_max) as [->|Hne].
  - vm_compute. reflexivity.
  - rewrite add_small by (unfold in_int, int_min, int_max in *; lia).
    destruct (Z.eqb_spec (c + 1) 1), (Z.eqb_spec c 0); lia.
Qed.

End GoIntFacts.

Module SubsFacts.
Import Subs.

Lemma get_insert_eq (m : gmap string Z) k v : get (<[k := v]> m) k = v.
Proof. unfold get. by rewrite lookup_insert_eq. Qed.

Lemma get_delete_eq (m : gmap string Z) k : get (delete k m) k = 0%Z.
Proof. unfold get. by rewrite lookup_delete_eq. Qed.

Lemma get_incr_eq (m : gmap string Z) k : get (incr m k) k = GoInt.add (get m k) 1.
Proof. apply get_insert_eq. Qed.

Lemma get_decr_eq (m : gmap string Z) k : get (decr m k) k = GoInt.sub (get m k) 1.
Proof. apply get_insert_eq. Qed.

Lemma sub_one_pos (c : Z) : GoInt.in_int c -> (0 < c)%Z -> GoInt.sub c 1 = (c - 1)%Z.
Proof.
  intros Hc Hp. apply GoIntFacts.sub_small.
  unfold GoInt.in_int, GoInt.int_min, GoInt.int_max in *; lia.
Qed.

End SubsFacts.

Module SubsProofs.
Import Subs SubsFacts.

Section Counter.
Variables (m : gmap string Z) (k : string).
Hypothesis Hrange : GoInt.in_int (get m k).
Hypothesis Hnn : (0 <= get m k)%Z.

Lemma add_get : get (AddSubscription m k).1 k = GoInt.add (get m k) 1.
Proof. apply get_incr_eq. Qed.

Lemma add_first : (AddSubscription m k).2 = Z.eqb (get m k) 0.
Proof. simpl. rewrite get_incr_eq. by apply GoIntFacts.add_one_eqb. Qed.

Lemma remove_get : get (RemoveSubscription m k).1 k = Z.max (get m k - 1) 0.
Proof.
  unfold RemoveSubscription.
  destruct (Z.ltb_spec 0 (get m k)) as [Hp|Hp].
  - rewrite get_decr_eq, sub_one_pos by done.
    destruct (Z.eqb_spec (get m k - 1) 0); simpl.
    + rewrite get_delete_eq. lia.
    + rewrite get_decr_eq, sub_one_pos by done. lia.
  - simpl. lia.
Qed.

Lemma remove_last : (RemoveSubscription m k).2 = Z.eqb (get m k) 1.
Proof.
  unfold RemoveSubscription.
  destruct (Z.ltb_spec 0 (get m k)) as [Hp|Hp].
  - rewrite get_decr_eq, sub_one_pos by done.
    destruct (Z.eqb_spec (get m k - 1) 0), (Z.eqb_spec (get m k) 1); simpl; lia.
  - simpl. destruct (Z.eqb_spec (get m k) 1); lia.
Qed.

Lemma remove_deleted :
  (RemoveSubscription m k).2 = true -> (RemoveSubscription m k).1 !! k = None.
Proof.
  unfold RemoveSubscription.
  destruct (Z.ltb 0 (get m k)); [|done].
  destruct (Z.eqb (get (decr m k) k) 0); simpl; [|done].
  intros _. apply lookup_delete_eq.
Qed.

Lemma subscribe_ok_get : get (Subscribe okClient m k).1.1 k = GoInt.add (get m k) 1.
Proof.
  unfold Subscribe. simpl.
  destruct (Z.eqb (get (incr m k) k) 1); simpl; apply get_incr_eq.
Qed.

Lemma subscribe_ok_sent :
  (Subscribe okClient m k).1.2 = (if Z.eqb (get m k) 0 then [USubscribe k] else []).
Proof.
  unfold Subscribe. rewrite get_incr_eq, GoIntFacts.add_one_eqb by done.
  by destruct (Z.eqb (get m k) 0).
Qed.

Lemma subscribe_ok_err : (Subscribe okClient m k).2 = None.
Proof. unfold Subscribe. by destruct (Z.eqb (get (incr m k) k) 1). Qed.

Lemma unsubscribe_ok_get : get (Unsubscribe okClient m k).1.1 k = Z.max (get m k - 1) 0.
Proof.
  unfold Unsubscribe.
  destruct (Z.ltb_spec 0 (get m k)) as [Hp|Hp].
  - rewrite get_decr_eq, sub_one_pos by done.
    destruct (Z.eqb_spec (get m k - 1) 0); simpl.
    + rewrite get_delete_eq. lia.
    + rewrite get_decr_eq, sub_one_pos by done. lia.
  - simpl. lia.
Qed.

Lemma unsubscribe_ok_sent :
  (Unsubscribe okClient m k).1.2 = (if Z.eqb (get m k) 1 then [UUnsubscribe k] else []).
Proof.
  unfold Unsubscribe.
  destruct (Z.ltb_spec 0 (get m k)) as [Hp|Hp].
  - rewrite get_decr_eq, sub_one_pos by done.
    destruct (Z.eqb_spec (get m k - 1) 0), (Z.eqb_spec (get m k) 1); simpl; done || lia.
  - destruct (Z.eqb_spec (get m k) 1); simpl; done || lia.
Qed.

Lemma unsubscribe_ok_deleted :
  get m k = 1%Z -> (Unsubscribe okClient m k).1.1 !! k = None.
Proof.
  intros H1. unfold Unsubscribe. rewrite H1. simpl.
  rewrite get_decr_eq, H1. simpl. apply lookup_delete_eq.
Qed.

End Counter.

Lemma two_adds_one_release (m : gmap string Z) (k : string) :
  get m k = 0%Z ->
  let m2 := (AddSubscription (AddSubscription m k).1 k).1 in
  let r1 := RemoveSubscription m2 k in
  let r2 := RemoveSubscription r1.1 k in
  get r1.1 k = 1%Z /\ r1.2 = false /\ r2.2 = true /\ r2.1 !! k = None.
Proof.
  intros H0.
  assert (Hm2 : get (AddSubscription (AddSubscription m k).1 k).1 k = 2%Z).
  { rewrite !add_get, H0. reflexivity. }
  set (m2 := (AddSubscription (AddSubscription m k).1 k).1) in *.
  assert (R2 : GoInt.in_int 2) by (vm_compute; split; discriminate).
  assert (Hr1 : get (RemoveSubscription m2 k).1 k = 1%Z).
  { rewrite remove_get; rewrite Hm2; done || lia. }
  assert (R1 : GoInt.in_int 1) by (vm_compute; split; discriminate).
  split; [done |].
  split; [rewrite remove_last; rewrite ?Hm2; done || lia |].
  assert (Hl : (RemoveSubscription (RemoveSubscription m2 k).1 k).2 = true).
  { rewrite remove_last; rewrite Hr1; done || lia. }
  split; [done |]. by apply remove_deleted.
Qed.

End SubsProofs.

(** C5: for an instrument whose counter c is a non-negative Go int,
    SubscriptionState.AddSubscription sets it to c+1 and returns true
    exactly when c = 0; RemoveSubscription sets it to max(c-1, 0),
    returns true exactly when c = 1 and then removes the entry; with an
    upstream that succeeds, MarketServiceImpl.Subscribe increments and
    sends the upstream subscribe exactly when c = 0, and Unsubscribe
    decrements with clamping and sends the upstream unsubscribe exactly
    when c = 1, removing the entry.  From 0, two adds and a release leave
    1, and a second release reports the last release and removes it. *)
Theorem refcount_add_release (m : gmap string Z) (inst : string)
  (Hrange : GoInt.in_int (Subs.get m inst)) (Hnn : (0 <= Subs.get m inst)%Z) :
  Subs.get (Subs.AddSubscription m inst).1 inst = GoInt.add (Subs.get m inst) 1 /\
  (Subs.AddSubscription m inst).2 = Z.eqb (Subs.get m inst) 0 /\
  Subs.get (Subs.RemoveSubscription m inst).1 inst = Z.max (Subs.get m inst - 1) 0 /\
  (Subs.RemoveSubscription m inst).2 = Z.eqb (Subs.get m inst) 1 /\
  ((Subs.RemoveSubscription m inst).2 = true ->
     (Subs.RemoveSubscription m inst).1 !! inst = None) /\
  Subs.get (Subs.Subscribe Subs.okClient m inst).1.1 inst = GoInt.add (Subs.get m inst) 1 /\
  (Subs.Subscribe Subs.okClient m inst).1.2
    = (if Z.eqb (Subs.get m inst) 0 then [Subs.USubscribe inst] else []) /\
  Subs.get (Subs.Unsubscribe Subs.okClient m inst).1.1 inst
    = Z.max (Subs.get m inst - 1) 0 /\
  (Subs.Unsubscribe Subs.okClient m inst).1.2
    = (if Z.eqb (Subs.get m inst) 1 then [Subs.UUnsubscribe inst] else []) /\
  (Subs.get m inst = 1%Z -> (Subs.Unsubscribe Subs.okClient m inst).1.1 !! inst = None) /\
  (Subs.get m inst = 0%Z ->
     let m2 := (Subs.AddSubscription (Subs.AddSubscription m inst).1 inst).1 in
     let r1 := Subs.RemoveSubscription m2 inst in
     let r2 := Subs.RemoveSubscription r1.1 inst in
     Subs.get r1.1 inst = 1%Z /\ r1.2 = false /\ r2.2 = true /\ r2.1 !! inst = None).
Proof.
  split; [apply SubsProofs.add_get |].
  split; [by apply SubsProofs.add_first |].
  split; [by apply SubsProofs.remove_get |].
  split; [by apply SubsProofs.remove_last |].
  split; [apply SubsProofs.remove_deleted |].
  split; [apply SubsProofs.subscribe_ok_get |].
  split; [by apply SubsProofs.subscribe_ok_sent |].
  split; [by apply SubsProofs.unsubscribe_ok_get |].
  split; [by apply SubsProofs.unsubscribe_ok_sent |].
  split; [apply SubsProofs.unsubscribe_ok_deleted |].
  apply SubsProofs.two_adds_one_release.
Qed.

Lemma refcount_add_release_witness :
  GoInt.in_int (Subs.get ∅ "rb2505") /\ (0 <= Subs.get ∅ "rb2505")%Z /\
  (Subs.AddSubscription ∅ "rb2505").2 = true.
Proof.
  assert (H1 : GoInt.in_int (Subs.get ∅ "rb2505")) by (vm_compute; split; discriminate).
  assert (H2 : (0 <= Subs.get ∅ "rb2505")%Z) by (vm_compute; discriminate).
  split; [exact H1 |]. split; [exact H2 |].
  destruct (refcount_add_release ∅ "rb2505" H1 H2) as [_ [Hf _]].
  rewrite Hf. reflexivity.
Defined.

(** C4 (code defect): AddExistingSubscription increments the counter
    twice per call: the counter becomes c+1+1 (Go int arithmetic), so one
    call on an empty registry leaves "rb2505" at 2, not 1. *)
Theorem AddExistingSubscription_increments_twice (m : gmap string Z) (inst : string) :
  Subs.get (Subs.AddExistingSubscription m inst) inst
    = GoInt.add (GoInt.add (Subs.get m inst) 1) 1 /\
  Subs.get (Subs.AddExistingSubscription ∅ "rb2505") "rb2505" = 2%Z.
Proof.
  split.
  - unfold Subs.AddExistingSubscription. rewrite !SubsFacts.get_incr_eq. reflexivity.
  - reflexivity.
Qed.

(** C9 (code defect): when the first Subscribe of an instrument fails
    upstream, the counter reads its old value 0 again, but the entry is
    left in the map with count 0 instead of being removed: from an empty
    registry the map becomes {rb2505 := 0}, which GetActiveSymbols then
    reports, so the registry is not unchanged. *)
Theorem subscribe_failure_leaves_zero_entry (m : gmap string Z) (inst : string) :
  Subs.get m inst = 0%Z ->
  (Subs.Subscribe Subs.failingClient m inst).1.1 = <[inst := 0%Z]> m /\
  (Subs.Subscribe Subs.failingClient ∅ "rb2505").1.1 = {["rb2505" := 0%Z]} /\
  (Subs.Subscribe Subs.failingClient ∅ "rb2505").2
    = Some (NewInternalError "failed to subscribe" (ErrBase "failed to push command to redis")) /\
  "rb2505" ∈ Subs.MS_GetActiveSymbols (Subs.Subscribe Subs.failingClient ∅ "rb2505").1.1 /\
  "rb2505" ∉ Subs.MS_GetActiveSymbols ∅.
Proof.
  intros H0. split.
  - unfold Subs.Subscribe. rewrite SubsFacts.get_incr_eq, H0. simpl.
    unfold Subs.decr. rewrite SubsFacts.get_incr_eq, H0. simpl.
    unfold Subs.incr. rewrite insert_insert_eq. reflexivity.
  - split; [reflexivity |]. split; [reflexivity |].
    unfold Subs.MS_GetActiveSymbols. split.
    + change ("rb2505" ∈ dom ({["rb2505" := 0%Z]} : gmap string Z)).
      rewrite dom_singleton_L. set_solver.
    + rewrite dom_empty_L. set_solver.
Qed.

Lemma subscribe_failure_leaves_zero_entry_witness :
  Subs.get ∅ "rb2505" = 0%Z /\
  (Subs.Subscribe Subs.failingClient ∅ "rb2505").1.1 = <["rb2505" := 0%Z]> ∅.
Proof.
  assert (H : Subs.get ∅ "rb2505" = 0%Z) by reflexivity.
  split; [exact H |]. apply (subscribe_failure_leaves_zero_entry ∅ "rb2505" H).
Defined.

Module HandlerFacts.
Import Handler Json.

Lemma orders_create_log st l : (create_log st l).(orders) = st.(orders).
Proof. reflexivity. Qed.

Lemma orders_create_trade st tr : (create_trade st tr).(orders) = st.(orders).
Proof. unfold create_trade. by destruct existsb. Qed.

Lemma orders_save_position st p : (save_position st p).(orders) = st.(orders).
Proof. unfold save_position. by destruct existsb. Qed.

Lemma orders_updatePosition st o pl : (updatePosition st o pl).(orders) = st.(orders).
Proof.
  unfold updatePosition.
  destruct find; [apply orders_save_position |]. by destruct String.eqb.
Qed.

Lemma orders_notify st u d : (notifyUser st u d).(orders) = st.(orders).
Proof. unfold notifyUser. by destruct notifier. Qed.

Lemma apply_updates_cons c cols o :
  Order.apply_updates (c :: cols) o = Order.apply_updates cols (Order.set_column o c).
Proof. reflexivity. Qed.

(** Assignments to other columns keep the status. *)
Lemma status_apply_updates_other cols o :
  (forall s, ~ In (Order.ColOrderStatus s) cols) ->
  Order.OrderStatus (Order.apply_updates cols o) = Order.OrderStatus o.
Proof.
  revert o. induction cols as [|c cols IH]; intros o Hn; [done |].
  rewrite apply_updates_cons, IH.
  - destruct c; simpl; try done. exfalso. apply (Hn s). by left.
  - intros s Hs. apply (Hn s). by right.
Qed.

Lemma status_rtn_updates (statusStr sysID msg : string) o :
  Order.OrderStatus (Order.apply_updates
    ((if negb (String.eqb statusStr "") then [Order.ColOrderStatus statusStr] else [])
     ++ (if negb (String.eqb sysID "") then [Order.ColOrderSysID sysID] else [])
     ++ (if negb (String.eqb msg "") then [Order.ColStatusMsg msg] else []))%list o)
  = if String.eqb statusStr "" then Order.OrderStatus o else statusStr.
Proof.
  destruct (String.eqb statusStr "") eqn:E; simpl.
  - apply status_apply_updates_other. intros s.
    destruct (String.eqb sysID ""), (String.eqb msg ""); simpl; intuition congruence.
  - rewrite status_apply_updates_other; [done |]. intros s.
    destruct (String.eqb sysID ""), (String.eqb msg ""); simpl; intuition congruence.
Qed.

Lemma Forall2_map_self {A} (f : A -> A) (R : A -> A -> Prop) (l : list A) :
  (forall x, In x l -> R x (f x)) -> Forall2 R l (map f l).
Proof.
  induction l as [|x l IH]; intros H; simpl; constructor.
  - apply H. by left.
  - apply IH. intros y Hy. apply H. by right.
Qed.

End HandlerFacts.

(** C10: an RTN_ORDER whose OrderStatus, OrderSysID and StatusMsg fields
    are all empty (or absent) for a matched order changes no order row
    and broadcasts nothing, but appends the OrderLog entry
    (OldStatus = the order's status, NewStatus = "", Message = ""). *)
Theorem rtn_order_empty_fields_log_only (st : Handler.State)
  (resp : Handler.TradeResponse) (payload : gmap string Json.JValue) (order : Order.t)
  (Hty : resp.(Handler.Type_) = "RTN_ORDER") (Hpl : resp.(Handler.Payload) = Handler.PMap payload)
  (Hfound : Handler.find_order_by_ref st.(Handler.orders) resp.(Handler.RequestID) = Some order)
  (Hs : Json.str_field payload "OrderStatus" = "")
  (Hsys : Json.str_field payload "OrderSysID" = "")
  (Hmsg : Json.str_field payload "StatusMsg" = "") :
  (Handler.ProcessResponse st resp).(Handler.orders) = st.(Handler.orders) /\
  (Handler.ProcessResponse st resp).(Handler.broadcasts) = st.(Handler.broadcasts) /\
  (Handler.ProcessResponse st resp).(Handler.orderLogs)
    = (st.(Handler.orderLogs)
       ++ [{| OrderLog.OrderID := order.(Order.ID);
              OrderLog.OldStatus := order.(Order.OrderStatus);
              OrderLog.NewStatus := ""; OrderLog.Message := "" |}])%list.
Proof.
  unfold Handler.ProcessResponse. rewrite Hpl, Hty. cbn -[Handler.handleRtnOrder].
  unfold Handler.handleRtnOrder. rewrite Hfound, Hs, Hsys, Hmsg. cbn.
  split; [done |]. split; done.
Qed.

Lemma rtn_order_empty_fields_log_only_witness :
  (Handler.ProcessResponse
     (Samples.state_with [Samples.order_rb Model.OrderStatusNoTradeQueueing 0 1 "0" "0"] [])
     (Samples.rtn "RTN_ORDER" [("FrontID", Json.JNumber 1)])).(Handler.orders)
  = [Samples.order_rb Model.OrderStatusNoTradeQueueing 0 1 "0" "0"].
Proof.
  apply (rtn_order_empty_fields_log_only
           (Samples.state_with [Samples.order_rb Model.OrderStatusNoTradeQueueing 0 1 "0" "0"] [])
           (Samples.rtn "RTN_ORDER" [("FrontID", Json.JNumber 1)])
           (list_to_map [("FrontID", Json.JNumber 1)])
           (Samples.order_rb Model.OrderStatusNoTradeQueueing 0 1 "0" "0"));
    reflexivity.
Defined.

(** C1 (counterexample): an order already ALL_TRADED ("0") receiving an
    RTN_ORDER with OrderStatus "5" (CANCELED) is moved to "5". *)
Lemma rtn_order_terminal_not_sticky :
  let st := Samples.state_with [Samples.order_rb Model.OrderStatusAllTraded 1 1 "0" "0"] [] in
  let st' := Handler.ProcessResponse st
               (Samples.rtn "RTN_ORDER" [("OrderStatus", Json.JString Model.OrderStatusCanceled)]) in
  map Order.OrderStatus st.(Handler.orders) = [Model.OrderStatusAllTraded] /\
  map Order.OrderStatus st'.(Handler.orders) = [Model.OrderStatusCanceled].
Proof. split; reflexivity. Qed.

(** C1 (amended): RTN_ORDER has no terminal-state guard.  For the order
    matched by RequestID, every row with its primary key takes the
    payload's OrderStatus when that field is a non-empty string, whatever
    its current status; otherwise, and for every other row, the status
    is unchanged. *)
Theorem rtn_order_sets_status (st : Handler.State)
  (resp : Handler.TradeResponse) (payload : gmap string Json.JValue) (order : Order.t)
  (Hty : resp.(Handler.Type_) = "RTN_ORDER") (Hpl : resp.(Handler.Payload) = Handler.PMap payload)
  (Hfound : Handler.find_order_by_ref st.(Handler.orders) resp.(Handler.RequestID) = Some order) :
  Forall2 (fun o o' =>
      Order.OrderStatus o' =
        if Z.eqb o.(Order.ID) order.(Order.ID)
           && negb (String.eqb (Json.str_field payload "OrderStatus") "")
        then Json.str_field payload "OrderStatus" else Order.OrderStatus o)
    st.(Handler.orders) (Handler.ProcessResponse st resp).(Handler.orders).
Proof.
  unfold Handler.ProcessResponse. rewrite Hpl, Hty. cbn -[Handler.handleRtnOrder].
  unfold Handler.handleRtnOrder. rewrite Hfound.
  set (s := Json.str_field payload "OrderStatus").
  set (sy := Json.str_field payload "OrderSysID").
  set (mg := Json.str_field payload "StatusMsg").
  destruct (Nat.ltb 0 _) eqn:Hlen.
  - rewrite HandlerFacts.orders_notify. cbn [Handler.update_order Handler.with_orders Handler.orders].
    apply HandlerFacts.Forall2_map_self. intros o _.
    destruct (Z.eqb o.(Order.ID) order.(Order.ID)); cbn [andb].
    + rewrite HandlerFacts.status_rtn_updates. by destruct (String.eqb s "").
    + reflexivity.
  - assert (Hs : String.eqb s "" = true).
    { destruct (String.eqb s "") eqn:E; [done |]. cbn in Hlen. discriminate. }
    rewrite Hs. cbn [Handler.create_log Handler.with_orderLogs Handler.orders].
    clear Hfound Hlen.
    induction (Handler.orders st) as [|o os IH].
    + by apply Forall2_nil.
    + constructor; [by rewrite andb_false_r | exact IH].
Qed.

Lemma rtn_order_sets_status_witness :
  let st := Samples.state_with [Samples.order_rb Model.OrderStatusAllTraded 1 1 "0" "0"] [] in
  let pl : gmap string Json.JValue :=
    list_to_map [("OrderStatus", Json.JString Model.OrderStatusCanceled)] in
  let resp := Samples.rtn "RTN_ORDER" [("OrderStatus", Json.JString Model.OrderStatusCanceled)] in
  let order := Samples.order_rb Model.OrderStatusAllTraded 1 1 "0" "0" in
  resp.(Handler.Type_) = "RTN_ORDER" /\ resp.(Handler.Payload) = Handler.PMap pl /\
  Handler.find_order_by_ref st.(Handler.orders) resp.(Handler.RequestID) = Some order /\
  Forall2 (fun o o' =>
      Order.OrderStatus o' =
        if Z.eqb o.(Order.ID) order.(Order.ID)
           && negb (String.eqb (Json.str_field pl "OrderStatus") "")
        then Json.str_field pl "OrderStatus" else Order.OrderStatus o)
    st.(Handler.orders) (Handler.ProcessResponse st resp).(Handler.orders).
Proof.
  intros st pl resp order.
  split; [reflexivity |]. split; [reflexivity |]. split; [reflexivity |].
  apply rtn_order_sets_status; reflexivity.
Defined.

Module HandlerFacts2.

Lemma Forall2_in_r {A B} (R : A -> B -> Prop) (l : list A) (l' : list B) (y : B) :
  Forall2 R l l' -> In y l' -> exists x, In x l /\ R x y.
Proof.
  induction 1 as [|x y' l l' Hxy _ IH]; [done |].
  intros [<-|Hin].
  - exists x. split; [by left | done].
  - destruct (IH Hin) as (x' & Hx' & HR). exists x'. split; [by right | done].
Qed.

End HandlerFacts2.

(** C2 (counterexample): an order with VolumeTotalOriginal 1 and
    VolumeTraded 0 receiving an RTN_TRADE of Volume 2 ends with
    VolumeTraded 2 > 1 and status ALL_TRADED. *)
Lemma rtn_trade_overfill :
  let st := Samples.state_with [Samples.order_rb Model.OrderStatusNoTradeQueueing 0 1 "0" "0"] [] in
  let st' := Handler.ProcessResponse st
    (Samples.rtn "RTN_TRADE" [("Volume", Json.JNumber 2); ("Price", Json.JNumber 3000);
                              ("TradeID", Json.JString "t1")]) in
  map (fun o => (Order.VolumeTraded o, Order.VolumeTotalOriginal o, Order.OrderStatus o))
      st'.(Handler.orders) = [(2%Z, 1%Z, Model.OrderStatusAllTraded)].
Proof. reflexivity. Qed.

(** C2 (amended): on RTN_TRADE for the order matched by RequestID, with
    v = int(Volume) and no int overflow, every row with the order's key
    gets VolumeTraded = old VolumeTraded + v (no clamping) and status
    ALL_TRADED when that sum is at least VolumeTotalOriginal, PART_QUEUED
    otherwise; other rows are untouched.  Hence when 0 <= old, 0 <= v and
    old + v <= VolumeTotalOriginal, every such row satisfies
    0 <= VolumeTraded <= VolumeTotalOriginal and is ALL_TRADED iff
    VolumeTraded = VolumeTotalOriginal. *)
Theorem rtn_trade_volume_status (st : Handler.State)
  (resp : Handler.TradeResponse) (payload : gmap string Json.JValue) (order : Order.t)
  (Hty : resp.(Handler.Type_) = "RTN_TRADE") (Hpl : resp.(Handler.Payload) = Handler.PMap payload)
  (Hfound : Handler.find_order_by_ref st.(Handler.orders) resp.(Handler.RequestID) = Some order)
  (Hrange : GoInt.in_int
     (order.(Order.VolumeTraded) + Json.float_to_int (Json.num_field payload "Volume"))) :
  let v := Json.float_to_int (Json.num_field payload "Volume") in
  let newFilled := (order.(Order.VolumeTraded) + v)%Z in
  let st' := Handler.ProcessResponse st resp in
  Forall2 (fun o o' =>
      if Z.eqb o.(Order.ID) order.(Order.ID) then
        o'.(Order.VolumeTraded) = newFilled /\
        o'.(Order.OrderStatus) =
          (if Z.leb order.(Order.VolumeTotalOriginal) newFilled
           then Model.OrderStatusAllTraded else Model.OrderStatusPartTradedQueueing) /\
        o'.(Order.VolumeTotalOriginal) = o.(Order.VolumeTotalOriginal)
      else o' = o)
    st.(Handler.orders) st'.(Handler.orders) /\
  ((0 <= order.(Order.VolumeTraded))%Z -> (0 <= v)%Z ->
   (newFilled <= order.(Order.VolumeTotalOriginal))%Z ->
   forall o', In o' st'.(Handler.orders) -> o'.(Order.ID) = order.(Order.ID) ->
     (0 <= o'.(Order.VolumeTraded) <= order.(Order.VolumeTotalOriginal))%Z /\
     (o'.(Order.OrderStatus) = Model.OrderStatusAllTraded <->
      o'.(Order.VolumeTraded) = order.(Order.VolumeTotalOriginal))).
Proof.
  intros v newFilled st'.
  assert (HF : Forall2 (fun o o' =>
      if Z.eqb o.(Order.ID) order.(Order.ID) then
        o'.(Order.VolumeTraded) = newFilled /\
        o'.(Order.OrderStatus) =
          (if Z.leb order.(Order.VolumeTotalOriginal) newFilled
           then Model.OrderStatusAllTraded else Model.OrderStatusPartTradedQueueing) /\
        o'.(Order.VolumeTotalOriginal) = o.(Order.VolumeTotalOriginal)
      else o' = o) st.(Handler.orders) st'.(Handler.orders)).
  { subst st'. unfold Handler.ProcessResponse. rewrite Hpl, Hty. cbn -[Handler.handleRtnTrade].
    unfold Handler.handleRtnTrade. rewrite Hfound.
    rewrite HandlerFacts.orders_notify, HandlerFacts.orders_updatePosition.
    cbn [Handler.update_order Handler.with_orders Handler.orders].
    rewrite HandlerFacts.orders_create_trade.
    apply HandlerFacts.Forall2_map_self. intros o _.
    destruct (Z.eqb o.(Order.ID) order.(Order.ID)); [| reflexivity].
    cbn. rewrite GoIntFacts.add_small by exact Hrange. subst v newFilled.
    split; [reflexivity |]. split; reflexivity. }
  split; [exact HF |].
  intros H0 Hv Hle o' Hin Hid.
  destruct (HandlerFacts2.Forall2_in_r _ _ _ _ HF Hin) as (o & _ & HR).
  destruct (Z.eqb_spec o.(Order.ID) order.(Order.ID)) as [_|Hne].
  - destruct HR as (Hvt & Hst & _). rewrite Hvt, Hst.
    subst newFilled. split; [lia |].
    destruct (Z.leb_spec order.(Order.VolumeTotalOriginal) (order.(Order.VolumeTraded) + v)).
    + split; [lia | done].
    + split; [discriminate | lia].
  - subst o'. congruence.
Qed.

Lemma rtn_trade_volume_status_witness :
  let st := Samples.state_with [Samples.order_rb Model.OrderStatusNoTradeQueueing 0 2 "0" "0"] [] in
  let pl : gmap string Json.JValue :=
    list_to_map [("Volume", Json.JNumber 1); ("Price", Json.JNumber 3000);
                 ("TradeID", Json.JString "t1")] in
  let resp := Samples.rtn "RTN_TRADE" [("Volume", Json.JNumber 1); ("Price", Json.JNumber 3000);
                                       ("TradeID", Json.JString "t1")] in
  let order := Samples.order_rb Model.OrderStatusNoTradeQueueing 0 2 "0" "0" in
  resp.(Handler.Type_) = "RTN_TRADE" /\ resp.(Handler.Payload) = Handler.PMap pl /\
  Handler.find_order_by_ref st.(Handler.orders) resp.(Handler.RequestID) = Some order /\
  GoInt.in_int (order.(Order.VolumeTraded) + Json.float_to_int (Json.num_field pl "Volume")) /\
  (forall o', In o' (Handler.ProcessResponse st resp).(Handler.orders) ->
     o'.(Order.ID) = order.(Order.ID) ->
     (0 <= o'.(Order.VolumeTraded) <= order.(Order.VolumeTotalOriginal))%Z /\
     (o'.(Order.OrderStatus) = Model.OrderStatusAllTraded <->
      o'.(Order.VolumeTraded) = order.(Order.VolumeTotalOriginal))).
Proof.
  intros st pl resp order.
  assert (Hr : GoInt.in_int (order.(Order.VolumeTraded) + Json.float_to_int (Json.num_field pl "Volume")))
    by (vm_compute; split; discriminate).
  split; [reflexivity |]. split; [reflexivity |]. split; [reflexivity |]. split; [exact Hr |].
  destruct (rtn_trade_volume_status st resp pl order eq_refl eq_refl eq_refl Hr) as [_ Hinv].
  apply Hinv; vm_compute; discriminate.
Defined.

(** C3 (counterexample): a plain close ("1") of 2 lots of a long position
    with total 3 = today 3 + yesterday 0 decrements yesterday (clamped at
    0) and total, leaving total 1 <> today 3 + yesterday 0. *)
Lemma close_breaks_position_sum :
  let st := Samples.state_with
              [Samples.order_rb Model.OrderStatusNoTradeQueueing 0 2 Model.DirectionSell Model.OffsetClose]
              [Samples.long_rb 3 0 3] in
  let st' := Handler.ProcessResponse st
    (Samples.rtn "RTN_TRADE" [("Volume", Json.JNumber 2); ("Price", Json.JNumber 3000);
                              ("TradeID", Json.JString "t1")]) in
  map (fun p => (Position.Position p, Position.TodayPosition p, Position.YdPosition p))
      st'.(Handler.positions) = [(1%Z, 3%Z, 0%Z)].
Proof. reflexivity. Qed.

(** C3 (amended): let v = int(Volume) be a non-negative trade volume and
    the position's total, today and yesterday non-negative Go ints.  The
    row created for an open satisfies total = today + yesterday with all
    three non-negative; adding an open to a row (without overflow) keeps
    them non-negative and preserves total = today + yesterday; a close of
    any kind leaves all three non-negative, and preserves
    total = today + yesterday when the leg it decrements (today for
    closeToday "3", yesterday for any other close offset) holds at least v. *)
Theorem position_update_invariants (order : Order.t) (pos : Position.t) (posiDir : string)
  (tradeVol tradePrice : Q)
  (Hv : (0 <= Json.float_to_int tradeVol <= GoInt.int_max)%Z)
  (Hp : (0 <= pos.(Position.Position) <= GoInt.int_max)%Z)
  (Ht : (0 <= pos.(Position.TodayPosition) <= GoInt.int_max)%Z)
  (Hy : (0 <= pos.(Position.YdPosition) <= GoInt.int_max)%Z) :
  let v := Json.float_to_int tradeVol in
  let np := Handler.newPosition order posiDir tradeVol tradePrice in
  let ap := Handler.adjustPosition pos order tradeVol tradePrice in
  (np.(Position.Position) = (np.(Position.TodayPosition) + np.(Position.YdPosition))%Z /\
   (0 <= np.(Position.Position))%Z /\ (0 <= np.(Position.TodayPosition))%Z /\
   (0 <= np.(Position.YdPosition))%Z) /\
  (order.(Order.CombOffsetFlag) = Model.OffsetOpen ->
   (pos.(Position.Position) + v <= GoInt.int_max)%Z ->
   (pos.(Position.TodayPosition) + v <= GoInt.int_max)%Z ->
   (0 <= ap.(Position.Position))%Z /\ (0 <= ap.(Position.TodayPosition))%Z /\
   (0 <= ap.(Position.YdPosition))%Z /\
   (pos.(Position.Position) = (pos.(Position.TodayPosition) + pos.(Position.YdPosition))%Z ->
    ap.(Position.Position) = (ap.(Position.TodayPosition) + ap.(Position.YdPosition))%Z)) /\
  (order.(Order.CombOffsetFlag) <> Model.OffsetOpen ->
   (0 <= ap.(Position.Position))%Z /\ (0 <= ap.(Position.TodayPosition))%Z /\
   (0 <= ap.(Position.YdPosition))%Z /\
   (pos.(Position.Position) = (pos.(Position.TodayPosition) + pos.(Position.YdPosition))%Z ->
    (v <= (if String.eqb order.(Order.CombOffsetFlag) Model.OffsetCloseToday
           then pos.(Position.TodayPosition) else pos.(Position.YdPosition)))%Z ->
    ap.(Position.Position) = (ap.(Position.TodayPosition) + ap.(Position.YdPosition))%Z)).
Proof.
  intros v np ap. unfold GoInt.int_max in *.
  split.
  - subst np. cbn. lia.
  - split.
    + intros Hopen Hs1 Hs2. subst ap. unfold Handler.adjustPosition.
      rewrite Hopen. cbn [String.eqb Model.OffsetOpen Ascii.eqb Bool.eqb andb].
      fold v.
      rewrite !GoIntFacts.add_small
        by (unfold GoInt.in_int, GoInt.int_min, GoInt.int_max; lia).
      cbn. lia.
    + intros Hclose. subst ap. unfold Handler.adjustPosition.
      replace (String.eqb order.(Order.CombOffsetFlag) Model.OffsetOpen) with false
        by (symmetry; apply String.eqb_neq; exact Hclose).
      fold v.
      rewrite !GoIntFacts.sub_small
        by (unfold GoInt.in_int, GoInt.int_min, GoInt.int_max; lia).
      destruct (String.eqb order.(Order.CombOffsetFlag) Model.OffsetCloseToday); cbn;
        repeat match goal with |- context [Z.ltb ?a ?b] => destruct (Z.ltb_spec a b) end;
        lia.
Qed.

Lemma position_update_invariants_witness :
  let order := Samples.order_rb Model.OrderStatusNoTradeQueueing 0 2 Model.DirectionSell
                 Model.OffsetCloseToday in
  let pos := Samples.long_rb 3 0 3 in
  (0 <= Json.float_to_int 2 <= GoInt.int_max)%Z /\
  (0 <= pos.(Position.Position) <= GoInt.int_max)%Z /\
  (0 <= pos.(Position.TodayPosition) <= GoInt.int_max)%Z /\
  (0 <= pos.(Position.YdPosition) <= GoInt.int_max)%Z /\
  (order.(Order.CombOffsetFlag) <> Model.OffsetOpen ->
   (0 <= (Handler.adjustPosition pos order 2 3000).(Position.Position))%Z /\
   (0 <= (Handler.adjustPosition pos order 2 3000).(Position.TodayPosition))%Z /\
   (0 <= (Handler.adjustPosition pos order 2 3000).(Position.YdPosition))%Z /\
   (pos.(Position.Position) = (pos.(Position.TodayPosition) + pos.(Position.YdPosition))%Z ->
    (Json.float_to_int 2 <= (if String.eqb order.(Order.CombOffsetFlag) Model.OffsetCloseToday
           then pos.(Position.TodayPosition) else pos.(Position.YdPosition)))%Z ->
    (Handler.adjustPosition pos order 2 3000).(Position.Position)
      = ((Handler.adjustPosition pos order 2 3000).(Position.TodayPosition)
         + (Handler.adjustPosition pos order 2 3000).(Position.YdPosition))%Z)).
Proof.
  intros order pos.
  assert (Hv : (0 <= Json.float_to_int 2 <= GoInt.int_max)%Z) by (vm_compute; split; discriminate).
  assert (Hp : (0 <= pos.(Position.Position) <= GoInt.int_max)%Z) by (vm_compute; split; discriminate).
  assert (Ht : (0 <= pos.(Position.TodayPosition) <= GoInt.int_max)%Z) by (vm_compute; split; discriminate).
  assert (Hy : (0 <= pos.(Position.YdPosition) <= GoInt.int_max)%Z) by (vm_compute; split; discriminate).
  split; [exact Hv |]. split; [exact Hp |]. split; [exact Ht |]. split; [exact Hy |].
  exact (proj2 (proj2 (position_update_invariants order pos "2" 2 3000 Hv Hp Ht Hy))).
Defined.

Module RunnerFacts.
Import Runner.

Lemma run_ticks_triggered (r : ConditionOrderRunner) (ticks : list (Z * Q)) :
  r.(triggered) = true -> run_ticks r ticks = (r, []).
Proof.
  intros Ht. induction ticks as [|[t p] rest IH]; [done |].
  cbn [run_ticks]. unfold OnTick at 1. rewrite Ht. rewrite IH. reflexivity.
Qed.

Lemma action_mapping_agrees (a d f : string) :
  spec_action_mapping a = Some (d, f) -> action_direction_offset a = (d, f).
Proof.
  unfold spec_action_mapping, action_direction_offset. intros H.
  destruct (String.eqb a "open_long"); [by injection H as <- <- |].
  destruct (String.eqb a "close_long"); [by injection H as <- <- |].
  destruct (String.eqb a "open_short"); [by injection H as <- <- |].
  destruct (String.eqb a "close_short"); [by injection H as <- <- | discriminate].
Qed.

(** The order a fresh runner emits on a matching tick. *)
Lemma OnTick_fire (r : ConditionOrderRunner) t p :
  r.(triggered) = false -> condition_match r.(cfg) p = true ->
  exists o, OnTick r t p =
    ({| strategyID := r.(strategyID); instrumentID := r.(instrumentID);
        cfg := r.(cfg); triggered := true |}, Some o) /\
    o.(Order.InstrumentID) = r.(instrumentID) /\ o.(Order.LimitPrice) = p /\
    o.(Order.VolumeTotalOriginal) = r.(cfg).(Volume) /\
    o.(Order.StrategyID) = Some r.(strategyID) /\
    (o.(Order.Direction), o.(Order.CombOffsetFlag)) = action_direction_offset r.(cfg).(Action).
Proof.
  intros Hf Hm. unfold OnTick. rewrite Hf, Hm.
  destruct (action_direction_offset r.(cfg).(Action)) as [d f] eqn:E.
  eexists. split; [reflexivity |]. cbn. repeat split.
Qed.

Lemma OnTick_nomatch (r : ConditionOrderRunner) t p :
  r.(triggered) = false -> condition_match r.(cfg) p = false -> OnTick r t p = (r, None).
Proof. intros Hf Hm. unfold OnTick. by rewrite Hf, Hm. Qed.

End RunnerFacts.

(** C6: a fresh condition-order runner fed any tick stream emits no
    order if no tick satisfies its operator against TriggerPrice, and
    otherwise exactly one order, built at the first satisfying tick:
    instrument of the runner, LimitPrice = that tick's price,
    VolumeTotalOriginal = configured volume, back-link to the strategy,
    and (Direction, CombOffsetFlag) given by the action table for the
    four named actions; an already triggered runner emits nothing. *)
Theorem condition_runner_fires_once (r : Runner.ConditionOrderRunner)
  (ticks : list (Z * Q)) (Hfresh : r.(Runner.triggered) = false) :
  (match find (fun tp => Runner.condition_match r.(Runner.cfg) tp.2) ticks with
   | None => (Runner.run_ticks r ticks).2 = []
   | Some (_, p) =>
       exists o, (Runner.run_ticks r ticks).2 = [o] /\
         o.(Order.InstrumentID) = r.(Runner.instrumentID) /\ o.(Order.LimitPrice) = p /\
         o.(Order.VolumeTotalOriginal) = r.(Runner.cfg).(Runner.Volume) /\
         o.(Order.StrategyID) = Some r.(Runner.strategyID) /\
         (forall d f, Runner.spec_action_mapping r.(Runner.cfg).(Runner.Action) = Some (d, f) ->
            o.(Order.Direction) = d /\ o.(Order.CombOffsetFlag) = f)
   end) /\
  (forall r', r'.(Runner.triggered) = true -> (Runner.run_ticks r' ticks).2 = []).
Proof.
  split; [| intros r' Ht; by rewrite RunnerFacts.run_ticks_triggered].
  induction ticks as [|[t p] rest IH]; [done |].
  cbn [find snd].
  destruct (Runner.condition_match r.(Runner.cfg) p) eqn:Hm.
  - destruct (RunnerFacts.OnTick_fire r t p Hfresh Hm) as (o & Hon & Hi & Hl & Hv & Hs & Hd).
    exists o. cbn [Runner.run_ticks]. rewrite Hon.
    rewrite RunnerFacts.run_ticks_triggered by reflexivity. cbn.
    split; [done |]. repeat (split; [done |]).
    intros d f Hmap. rewrite (RunnerFacts.action_mapping_agrees _ _ _ Hmap) in Hd.
    by injection Hd.
  - cbn [Runner.run_ticks]. rewrite (RunnerFacts.OnTick_nomatch r t p Hfresh Hm).
    destruct (Runner.run_ticks r rest) as [r2 os] eqn:Er. cbn [snd app].
    destruct (find _ rest) as [[t' p']|]; exact IH.
Qed.

Lemma condition_runner_fires_once_witness :
  let r := Runner.NewConditionOrderRunner 7 "rb2505"
             {| Runner.TriggerPrice := 3000; Runner.Operator := ">=";
                Runner.Action := "open_long"; Runner.Volume := 1 |} in
  let ticks := [(1700000000%Z, 2990%Q); (1700000001%Z, 3000%Q);
                (1700000002%Z, 3010%Q); (1700000003%Z, 3010%Q)] in
  r.(Runner.triggered) = false /\
  exists o, (Runner.run_ticks r ticks).2 = [o] /\
    o.(Order.InstrumentID) = "rb2505" /\ o.(Order.LimitPrice) = 3000%Q /\
    o.(Order.VolumeTotalOriginal) = 1%Z /\ o.(Order.StrategyID) = Some 7%Z /\
    o.(Order.Direction) = Model.DirectionBuy /\ o.(Order.CombOffsetFlag) = Model.OffsetOpen.
Proof.
  intros r ticks.
  assert (Hf : r.(Runner.triggered) = false) by reflexivity.
  split; [exact Hf |].
  destruct (condition_runner_fires_once r ticks Hf) as [H _].
  cbn in H. destruct H as (o & Ho & Hi & Hl & Hv & Hs & Hd).
  destruct (Hd "0" "0" eq_refl) as [Hdir Hoff].
  exists o. repeat split; assumption.
Defined.

(** C7: whatever upstream client PlaceOrder is given, if its InsertOrder
    fails with e the call returns the internal error wrapping e, starts
    no persistence and leaves the order table untouched; if it succeeds
    the call returns nil, the order table is still untouched when it
    returns, and exactly one background persistence of the prepared
    order is pending, whose later success or failure (logged) only
    decides whether the row appears. *)
Theorem place_order_dispatch_then_persist
  (insert : list Dispatch.Command -> Order.t -> list Dispatch.Command * option GoError)
  (unixSec nanos : Z) (st : Dispatch.SvcState) (order : Order.t) :
  let order2 := Dispatch.prepareOrder unixSec nanos order in
  let res := Dispatch.PlaceOrder insert unixSec nanos st order in
  (forall q e, insert st.(Dispatch.cmdQueue) order2 = (q, Some e) ->
     res.2 = Some (NewInternalError "failed to send order to gateway" e) /\
     res.1.1.(Dispatch.dbOrders) = st.(Dispatch.dbOrders) /\
     res.1.1.(Dispatch.goroutines) = st.(Dispatch.goroutines)) /\
  (forall q, insert st.(Dispatch.cmdQueue) order2 = (q, None) ->
     res.2 = None /\
     res.1.1.(Dispatch.dbOrders) = st.(Dispatch.dbOrders) /\
     res.1.1.(Dispatch.goroutines) = (st.(Dispatch.goroutines) ++ [Dispatch.PersistOrder order2])%list /\
     (st.(Dispatch.goroutines) = [] -> forall dbOk : bool,
        (Dispatch.run_goroutine dbOk res.1.1).(Dispatch.dbOrders)
        = if dbOk then (st.(Dispatch.dbOrders) ++ [order2])%list else st.(Dispatch.dbOrders))).
Proof.
  intros order2 res. split.
  - intros q e Hins. subst res. unfold Dispatch.PlaceOrder. fold order2. rewrite Hins.
    cbn. repeat split.
  - intros q Hins. subst res. unfold Dispatch.PlaceOrder. fold order2. rewrite Hins.
    cbn. split; [done |]. split; [done |]. split; [done |].
    intros Hg dbOk. rewrite Hg. cbn. by destruct dbOk.
Qed.

Lemma place_order_dispatch_then_persist_witness :
  let st := {| Dispatch.cmdQueue := []; Dispatch.dbOrders := [];
               Dispatch.goroutines := []; Dispatch.logs := [] |} in
  let o := Samples.order_rb Model.OrderStatusPending 0 1 "0" "0" in
  (Dispatch.PlaceOrder (Dispatch.InsertOrder false) 1700000000 0 st o).2
    = Some (NewInternalError "failed to send order to gateway"
              (ErrBase "failed to push command to redis")) /\
  (Dispatch.PlaceOrder (Dispatch.InsertOrder false) 1700000000 0 st o).1.1.(Dispatch.goroutines) = [] /\
  (Dispatch.PlaceOrder (Dispatch.InsertOrder true) 1700000000 0 st o).2 = None /\
  (Dispatch.run_goroutine false
     (Dispatch.PlaceOrder (Dispatch.InsertOrder true) 1700000000 0 st o).1.1).(Dispatch.dbOrders) = [].
Proof.
  intros st o.
  destruct (place_order_dispatch_then_persist (Dispatch.InsertOrder false) 1700000000 0 st o)
    as [Hfail _].
  destruct (Hfail _ _ eq_refl) as (Herr & _ & Hg).
  destruct (place_order_dispatch_then_persist (Dispatch.InsertOrder true) 1700000000 0 st o)
    as [_ Hok].
  destruct (Hok _ eq_refl) as (Hnil & _ & _ & Hrun).
  split; [exact Herr |]. split; [exact Hg |]. split; [exact Hnil |].
  exact (Hrun eq_refl false).
Defined.

(** C8 (code defect): the INSERT_ORDER command Client.InsertOrder pushes
    has RequestID = OrderRef, but its payload carries the side, price and
    volume under OffsetFlag, Price and Volume (no CombOffsetFlag,
    LimitPrice, VolumeTotalOriginal keys), OrderPriceType "LimitPrice"
    instead of "2", TimeCondition "GFD" instead of "3", and no
    VolumeCondition, ContingentCondition, ForceCloseReason or
    CombHedgeFlag field. *)
Theorem insert_order_payload_fields (queue : list Dispatch.Command) (order : Order.t) :
  let p := Dispatch.insertOrderPayload order in
  (Dispatch.InsertOrder true queue order)
    = ({| Dispatch.Type_ := "INSERT_ORDER"; Dispatch.RequestID := order.(Order.OrderRef);
          Dispatch.Payload := p |} :: queue, None) /\
  p !! "CombOffsetFlag" = None /\ p !! "LimitPrice" = None /\
  p !! "VolumeTotalOriginal" = None /\
  p !! "OffsetFlag" = Some (Json.JString order.(Order.CombOffsetFlag)) /\
  p !! "OrderPriceType" = Some (Json.JString "LimitPrice") /\
  p !! "TimeCondition" = Some (Json.JString "GFD") /\
  p !! "VolumeCondition" = None /\ p !! "ContingentCondition" = None /\
  p !! "ForceCloseReason" = None /\ p !! "CombHedgeFlag" = None.
Proof.
  intros p. split; [reflexivity |]. subst p. unfold Dispatch.insertOrderPayload.
  destruct (String.eqb order.(Order.InvestorID) ""); repeat split; reflexivity.
Qed.

(* ================================================================== *)
(* Further properties of the code                                     *)
(* ================================================================== *)

Module SubsMore.
Import Subs SubsFacts.

Lemma in_int_bound (z : Z) : (0 <= z <= GoInt.int_max)%Z -> GoInt.in_int z.
Proof. unfold GoInt.in_int, GoInt.int_min, GoInt.int_max. lia. Qed.

Lemma add1 (c : Z) : (0 <= c)%Z -> (c + 1 <= GoInt.int_max)%Z -> GoInt.add c 1 = (c + 1)%Z.
Proof. intros. apply GoIntFacts.add_small, in_int_bound. lia. Qed.

Lemma sub1 (c : Z) : (0 < c)%Z -> (c <= GoInt.int_max)%Z -> GoInt.sub c 1 = (c - 1)%Z.
Proof. intros. apply GoIntFacts.sub_small, in_int_bound. lia. Qed.

Lemma incr_ne (m : gmap string Z) k k' : k' <> k -> incr m k !! k' = m !! k'.
Proof. intros. unfold incr. by rewrite lookup_insert_ne. Qed.

Lemma decr_ne (m : gmap string Z) k k' : k' <> k -> decr m k !! k' = m !! k'.
Proof. intros. unfold decr. by rewrite lookup_insert_ne. Qed.


Lemma get_add_existing (m : gmap string Z) k :
  (0 <= get m k)%Z -> (get m k + 2 <= GoInt.int_max)%Z ->
  get (AddExistingSubscription m k) k = (get m k + 2)%Z.
Proof.
  intros H0 H1. unfold AddExistingSubscription.
  rewrite !get_incr_eq, (add1 (get m k)) by lia. rewrite add1 by lia. lia.
Qed.

Lemma add_existing_ne (m : gmap string Z) k k' :
  k' <> k -> AddExistingSubscription m k !! k' = m !! k'.
Proof. intros. unfold AddExistingSubscription. by rewrite !incr_ne. Qed.

(** Subscribe on a counter that is already positive only increments. *)
Lemma subscribe_positive (cli : CTPClient) (m : gmap string Z) k :
  (0 < get m k)%Z -> (get m k + 1 <= GoInt.int_max)%Z ->
  Subscribe cli m k = (incr m k, [], None).
Proof.
  intros H0 H1. unfold Subscribe. rewrite get_incr_eq, add1 by lia.
  destruct (Z.eqb_spec (get m k + 1) 1); [lia | reflexivity].
Qed.

Lemma subscribe_zero_ok (m : gmap string Z) k :
  get m k = 0%Z -> Subscribe okClient m k = (incr m k, [USubscribe k], None).
Proof. intros H. unfold Subscribe. rewrite get_incr_eq, H. reflexivity. Qed.

Lemma unsubscribe_one (cli : CTPClient) (m : gmap string Z) k :
  get m k = 1%Z ->
  Unsubscribe cli m k
  = (delete k m, [UUnsubscribe k],
     option_map (NewInternalError "failed to unsubscribe") (ctpUnsubscribe cli k)).
Proof.
  intros H1. unfold Unsubscribe. rewrite H1. cbn.
  rewrite get_decr_eq, H1. cbn.
  unfold decr. rewrite delete_insert_eq.
  by destruct (ctpUnsubscribe cli k).
Qed.

Lemma unsubscribe_gt1 (cli : CTPClient) (m : gmap string Z) k :
  (1 < get m k)%Z -> (get m k <= GoInt.int_max)%Z ->
  Unsubscribe cli m k = (<[k := (get m k - 1)%Z]> m, [], None).
Proof.
  intros H Hb. unfold Unsubscribe.
  destruct (Z.ltb_spec 0 (get m k)); [| lia].
  rewrite get_decr_eq, sub1 by lia.
  destruct (Z.eqb_spec (get m k - 1) 0); [lia |].
  unfold decr. rewrite sub1 by lia. reflexivity.
Qed.

Lemma unsubscribe_nonpos (cli : CTPClient) (m : gmap string Z) k :
  (get m k <= 0)%Z -> Unsubscribe cli m k = (m, [], None).
Proof.
  intros H. unfold Unsubscribe.
  destruct (Z.ltb_spec 0 (get m k)); [lia | reflexivity].
Qed.

Lemma get_nonneg (m : gmap string Z) k :
  map_Forall (fun _ v => (0 <= v)%Z) m -> (0 <= get m k)%Z.
Proof.
  intros H. unfold get. destruct (m !! k) as [v|] eqn:E; cbn; [| lia].
  exact (H k v E).
Qed.

Lemma get_pos (m : gmap string Z) k v :
  map_Forall (fun _ v => (0 < v)%Z) m -> m !! k = Some v -> (0 < v)%Z.
Proof. intros H E. exact (H k v E). Qed.

End SubsMore.

(** X1: each registry operation on instrument k (SubscriptionState's
    AddSubscription and RemoveSubscription, MarketServiceImpl's
    Subscribe, Unsubscribe and AddExistingSubscription, whatever the
    upstream returns) leaves the entry of every other instrument as it
    was. *)
Theorem registry_ops_other_keys (cli : Subs.CTPClient) (m : gmap string Z) (k k' : string)
  (Hne : k' <> k) :
  (Subs.AddSubscription m k).1 !! k' = m !! k' /\
  (Subs.RemoveSubscription m k).1 !! k' = m !! k' /\
  (Subs.Subscribe cli m k).1.1 !! k' = m !! k' /\
  (Subs.Unsubscribe cli m k).1.1 !! k' = m !! k' /\
  Subs.AddExistingSubscription m k !! k' = m !! k'.
Proof.
  split; [by apply SubsMore.incr_ne |].
  split.
  { unfold Subs.RemoveSubscription.
    destruct (Z.ltb 0 _); [| done].
    destruct (Z.eqb _ 0); cbn; rewrite ?lookup_delete_ne by done; by apply SubsMore.decr_ne. }
  split.
  { unfold Subs.Subscribe.
    destruct (Z.eqb _ 1); [destruct (Subs.ctpSubscribe cli k) |]; cbn;
      rewrite ?SubsMore.decr_ne by done; by apply SubsMore.incr_ne. }
  split.
  { unfold Subs.Unsubscribe.
    destruct (Z.ltb 0 _); [| done].
    destruct (Z.eqb _ 0); [destruct (Subs.ctpUnsubscribe cli k) |]; cbn;
      rewrite ?lookup_delete_ne by done; by apply SubsMore.decr_ne. }
  by apply SubsMore.add_existing_ne.
Qed.

Lemma registry_ops_other_keys_witness :
  ("cu2505" <> "rb2505") /\
  (Subs.Subscribe Subs.failingClient {["cu2505" := 3%Z]} "rb2505").1.1 !! "cu2505" = Some 3%Z.
Proof.
  assert (H : "cu2505" <> "rb2505") by discriminate.
  split; [exact H |].
  destruct (registry_ops_other_keys Subs.failingClient {["cu2505" := 3%Z]} "rb2505" "cu2505" H)
    as (_ & _ & Hs & _ & _).
  rewrite Hs. reflexivity.
Defined.

(** X2: MarketServiceImpl.Unsubscribe, for any upstream, on a counter c
    that is a Go int: when c <= 0 it changes nothing, calls nothing and
    returns nil; when c = 1 it removes the entry and calls the upstream
    unsubscribe, and the entry stays removed even when that call fails,
    the error then being returned wrapped as an internal error; when
    c > 1 it stores c - 1 and calls nothing. *)
Theorem unsubscribe_cases (cli : Subs.CTPClient) (m : gmap string Z) (k : string)
  (Hr : GoInt.in_int (Subs.get m k)) :
  ((Subs.get m k <= 0)%Z -> Subs.Unsubscribe cli m k = (m, [], None)) /\
  (Subs.get m k = 1%Z ->
     (Subs.Unsubscribe cli m k).1.1 = delete k m /\
     (Subs.Unsubscribe cli m k).1.2 = [Subs.UUnsubscribe k] /\
     (Subs.Unsubscribe cli m k).2
       = option_map (NewInternalError "failed to unsubscribe") (Subs.ctpUnsubscribe cli k)) /\
  ((1 < Subs.get m k)%Z ->
     Subs.Unsubscribe cli m k = (<[k := (Subs.get m k - 1)%Z]> m, [], None)).
Proof.
  unfold GoInt.in_int in Hr.
  split; [| split].
  - intros H. unfold Subs.Unsubscribe.
    destruct (Z.ltb_spec 0 (Subs.get m k)); [lia | reflexivity].
  - intros H1. rewrite SubsMore.unsubscribe_one by exact H1. repeat split.
  - intros H. apply SubsMore.unsubscribe_gt1; [exact H | lia].
Qed.

Lemma unsubscribe_cases_witness :
  GoInt.in_int (Subs.get {["rb2505" := 1%Z]} "rb2505") /\
  (Subs.Unsubscribe Subs.failingClient {["rb2505" := 1%Z]} "rb2505").1.1
    = delete "rb2505" {["rb2505" := 1%Z]}.
Proof.
  assert (H : GoInt.in_int (Subs.get {["rb2505" := 1%Z]} "rb2505"))
    by (vm_compute; split; discriminate).
  split; [exact H |].
  destruct (unsubscribe_cases Subs.failingClient {["rb2505" := 1%Z]} "rb2505" H) as (_ & H1 & _).
  exact (proj1 (H1 eq_refl)).
Defined.

(** X3: with an upstream that accepts every call, Subscribe followed by
    Unsubscribe of the same instrument restores the registry exactly
    when the instrument was absent or had a positive count below the int
    maximum; the upstream then sees a subscribe and an unsubscribe if it
    was absent, and nothing otherwise; both calls return nil. *)
Theorem subscribe_unsubscribe_roundtrip (m : gmap string Z) (k : string)
  (Hk : m !! k = None \/ exists c, m !! k = Some c /\ (0 < c < GoInt.int_max)%Z) :
  let r1 := Subs.Subscribe Subs.okClient m k in
  let r2 := Subs.Unsubscribe Subs.okClient r1.1.1 k in
  r2.1.1 = m /\
  (r1.1.2 ++ r2.1.2)%list
    = (match m !! k with None => [Subs.USubscribe k; Subs.UUnsubscribe k] | Some _ => [] end) /\
  r1.2 = None /\ r2.2 = None.
Proof.
  cbv zeta. destruct Hk as [Hn | (c & Hc & Hb)].
  - assert (Hg : Subs.get m k = 0%Z) by (unfold Subs.get; by rewrite Hn).
    rewrite SubsMore.subscribe_zero_ok by exact Hg. cbn [fst snd].
    rewrite SubsMore.unsubscribe_one
      by (rewrite SubsFacts.get_incr_eq, Hg; reflexivity).
    cbn [fst snd]. unfold Subs.incr.
    rewrite delete_insert_id by exact Hn. rewrite Hn. repeat split.
  - assert (Hg : Subs.get m k = c) by (unfold Subs.get; by rewrite Hc).
    unfold GoInt.int_max in Hb.
    rewrite SubsMore.subscribe_positive by (rewrite Hg; unfold GoInt.int_max; lia).
    cbn [fst snd].
    assert (Hi : Subs.get (Subs.incr m k) k = (c + 1)%Z).
    { rewrite SubsFacts.get_incr_eq, Hg. apply SubsMore.add1; unfold GoInt.int_max; lia. }
    rewrite SubsMore.unsubscribe_gt1 by (rewrite Hi; unfold GoInt.int_max; lia).
    cbn [fst snd]. rewrite Hi. unfold Subs.incr. rewrite insert_insert_eq.
    replace (c + 1 - 1)%Z with c by lia. rewrite insert_id by exact Hc.
    rewrite Hc. repeat split.
Qed.

Lemma subscribe_unsubscribe_roundtrip_witness :
  let m : gmap string Z := {["cu2505" := 2%Z]} in
  (m !! "rb2505" = None \/ exists c, m !! "rb2505" = Some c /\ (0 < c < GoInt.int_max)%Z) /\
  (Subs.Unsubscribe Subs.okClient (Subs.Subscribe Subs.okClient m "rb2505").1.1 "rb2505").1.1 = m.
Proof.
  intros m.
  assert (H : m !! "rb2505" = None \/ exists c, m !! "rb2505" = Some c /\ (0 < c < GoInt.int_max)%Z)
    by (left; reflexivity).
  split; [exact H |].
  exact (proj1 (subscribe_unsubscribe_roundtrip m "rb2505" H)).
Defined.

(** X4: the counters of MarketServiceImpl stay valid.  If every counter
    is non-negative and the one of instrument k is at most the int
    maximum minus 2, then Subscribe and Unsubscribe (whatever the
    upstream returns) and AddExistingSubscription leave every counter
    non-negative; if every counter is moreover positive, Unsubscribe and
    AddExistingSubscription keep them all positive, and so does Subscribe
    when the upstream accepts the call. *)
Theorem registry_counts_stay_valid (cli : Subs.CTPClient) (m : gmap string Z) (k : string)
  (Hnn : map_Forall (fun _ v => (0 <= v)%Z) m)
  (Hb : (Subs.get m k + 2 <= GoInt.int_max)%Z) :
  map_Forall (fun _ v => (0 <= v)%Z) (Subs.Subscribe cli m k).1.1 /\
  map_Forall (fun _ v => (0 <= v)%Z) (Subs.Unsubscribe cli m k).1.1 /\
  map_Forall (fun _ v => (0 <= v)%Z) (Subs.AddExistingSubscription m k) /\
  (map_Forall (fun _ v => (0 < v)%Z) m ->
     map_Forall (fun _ v => (0 < v)%Z) (Subs.Subscribe Subs.okClient m k).1.1 /\
     map_Forall (fun _ v => (0 < v)%Z) (Subs.Unsubscribe cli m k).1.1 /\
     map_Forall (fun _ v => (0 < v)%Z) (Subs.AddExistingSubscription m k)).
Proof.
  pose proof (SubsMore.get_nonneg m k Hnn) as Hg.
  assert (Hinc : Subs.incr m k = <[k := (Subs.get m k + 1)%Z]> m).
  { unfold Subs.incr. rewrite SubsMore.add1 by lia. reflexivity. }
  assert (Hae : Subs.AddExistingSubscription m k
                = <[k := (Subs.get m k + 2)%Z]> m).
  { unfold Subs.AddExistingSubscription. unfold Subs.incr at 1.
    rewrite SubsFacts.get_incr_eq, (SubsMore.add1 (Subs.get m k)) by lia.
    rewrite SubsMore.add1 by lia. rewrite Hinc, insert_insert_eq.
    by replace (Subs.get m k + 1 + 1)%Z with (Subs.get m k + 2)%Z by lia. }
  assert (Hsub : forall c : Subs.CTPClient, (Subs.Subscribe c m k).1.1 = Subs.incr m k \/
            (Subs.Subscribe c m k).1.1 = <[k := 0%Z]> m).
  { intros c. unfold Subs.Subscribe.
    destruct (Z.eqb_spec (Subs.get (Subs.incr m k) k) 1) as [E|E];
      [destruct (Subs.ctpSubscribe c k) |]; cbn; [right | left | left]; try reflexivity.
    unfold Subs.decr. rewrite E. unfold Subs.incr at 1. rewrite insert_insert_eq.
    reflexivity. }
  assert (Hun : forall P : Z -> Prop, map_Forall (fun _ v => P v) m ->
            (forall c, (1 < c)%Z -> P (c - 1)%Z) ->
            map_Forall (fun _ v => P v) (Subs.Unsubscribe cli m k).1.1).
  { intros P HP Hstep.
    destruct (Z.le_gt_cases (Subs.get m k) 0) as [H0|H0].
    - rewrite SubsMore.unsubscribe_nonpos by exact H0. exact HP.
    - destruct (Z.eq_dec (Subs.get m k) 1%Z) as [H1|H1].
      + rewrite SubsMore.unsubscribe_one by exact H1. cbn.
        by apply map_Forall_delete.
      + rewrite SubsMore.unsubscribe_gt1 by lia. cbn.
        apply map_Forall_insert_2; [apply Hstep; lia | exact HP]. }
  split; [| split; [| split]].
  - destruct (Hsub cli) as [-> | ->]; [rewrite Hinc |];
      (apply map_Forall_insert_2; [lia | exact Hnn]).
  - apply Hun; [exact Hnn | intros; lia].
  - rewrite Hae. apply map_Forall_insert_2; [lia | exact Hnn].
  - intros Hpos. split; [| split].
    + unfold Subs.Subscribe; cbn.
      destruct (Z.eqb (Subs.get (Subs.incr m k) k) 1); cbn;
        rewrite Hinc; (apply map_Forall_insert_2; [lia | exact Hpos]).
    + apply Hun; [exact Hpos | intros; lia].
    + rewrite Hae. apply map_Forall_insert_2; [lia | exact Hpos].
Qed.

Lemma registry_counts_stay_valid_witness :
  let m : gmap string Z := {["rb2505" := 1%Z; "cu2505" := 4%Z]} in
  map_Forall (fun _ v => (0 <= v)%Z) m /\ (Subs.get m "rb2505" + 2 <= GoInt.int_max)%Z /\
  map_Forall (fun _ v => (0 <= v)%Z) (Subs.Unsubscribe Subs.failingClient m "rb2505").1.1.
Proof.
  intros m.
  assert (H1 : map_Forall (fun _ v => (0 <= v)%Z) m).
  { unfold m. apply map_Forall_insert_2; [lia |].
    apply map_Forall_insert_2; [lia | apply map_Forall_empty]. }
  assert (H2 : (Subs.get m "rb2505" + 2 <= GoInt.int_max)%Z) by (vm_compute; discriminate).
  split; [exact H1 |]. split; [exact H2 |].
  exact (proj1 (proj2 (registry_counts_stay_valid Subs.failingClient m "rb2505" H1 H2))).
Defined.

Module BootFacts.
Import Subs.

Lemma str_app_cancel (p a b : string) : (p ++ a)%string = (p ++ b)%string -> a = b.
Proof. induction p as [|c p IH]; cbn; [done |]. intros H. injection H. exact IH. Qed.

Definition is_err (e : option GoError) : bool :=
  match e with Some _ => true | None => false end.

Definition failed_msg (k : string) : string :=
  ("MarketService: Failed to re-subscribe to " ++ k)%string.

Lemma resubscribe_loop_eq (cli : CTPClient) (iter : list (string * Z)) :
  Boot.resubscribe_loop cli iter
  = (map (fun e => USubscribe e.1) (List.filter (fun e => Z.ltb 0 e.2) iter),
     map (fun e => failed_msg e.1)
       (List.filter (fun e => Z.ltb 0 e.2 && is_err (ctpSubscribe cli e.1)) iter)).
Proof.
  induction iter as [|[k c] rest IH]; [done |].
  cbn [Boot.resubscribe_loop]. rewrite IH. cbn [List.filter fst snd].
  destruct (Z.ltb 0 c); cbn [andb]; [| reflexivity].
  destruct (ctpSubscribe cli k); reflexivity.
Qed.

Lemma in_iter_get (m : gmap string Z) (iter : list (string * Z)) k c :
  iter ≡ₚ map_to_list m -> In (k, c) iter -> get m k = c.
Proof.
  intros Hp Hin. apply list_elem_of_In in Hin. rewrite Hp in Hin.
  apply elem_of_map_to_list in Hin. unfold get. by rewrite Hin.
Qed.

Lemma get_in_iter (m : gmap string Z) (iter : list (string * Z)) k :
  iter ≡ₚ map_to_list m -> (0 < get m k)%Z -> In (k, get m k) iter.
Proof.
  intros Hp H. unfold get in *. destruct (m !! k) as [c|] eqn:E; cbn in *; [| lia].
  apply list_elem_of_In. rewrite Hp. by apply elem_of_map_to_list.
Qed.

Lemma nodup_keys_filter (iter : list (string * Z)) (f : string * Z -> bool) :
  NoDup (map fst iter) -> NoDup (map fst (List.filter f iter)).
Proof.
  induction iter as [|[k c] rest IH]; cbn; [done |].
  intros Hnd. apply NoDup_cons in Hnd as [Hk Hnd].
  destruct (f (k, c)); cbn; [| by apply IH].
  apply NoDup_cons. split; [| by apply IH].
  intros Hin. apply Hk. apply list_elem_of_In. apply list_elem_of_In in Hin.
  apply in_map_iff in Hin as ([k' c'] & Hk' & Hin'). cbn in Hk'. subst k'.
  apply filter_In in Hin' as [Hin' _].
  apply in_map_iff. by exists (k, c').
Qed.

End BootFacts.

(** X5: MarketServiceImpl.ResubscribeAll, for any iteration order of the
    counter map, sends the upstream subscribe exactly once for each
    instrument whose count is positive and for no other instrument, sends
    no unsubscribe, logs exactly the instruments whose subscribe failed,
    and returns nil even when calls fail; the counters are not changed. *)
Theorem resubscribe_all_spec (cli : Subs.CTPClient) (m : gmap string Z)
  (iter : list (string * Z)) (Hperm : iter ≡ₚ map_to_list m) :
  let r := Boot.ResubscribeAll cli iter in
  r.2 = None /\ NoDup r.1.1 /\
  (forall k, In (Subs.USubscribe k) r.1.1 <-> (0 < Subs.get m k)%Z) /\
  (forall k, ~ In (Subs.UUnsubscribe k) r.1.1) /\
  (forall k, In ("MarketService: Failed to re-subscribe to " ++ k)%string r.1.2 <->
             (0 < Subs.get m k)%Z /\ Subs.ctpSubscribe cli k <> None).
Proof.
  cbv zeta. unfold Boot.ResubscribeAll. rewrite BootFacts.resubscribe_loop_eq. cbn [fst snd].
  assert (Hnd : NoDup (map fst iter)).
  { apply NoDup_ListNoDup. eapply Permutation_NoDup.
    - apply Permutation_map, Permutation_sym, Hperm.
    - apply NoDup_ListNoDup, NoDup_fst_map_to_list. }
  split; [done |]. split.
  { replace (map (fun e : string * Z => Subs.USubscribe e.1) (List.filter (fun e => Z.ltb 0 e.2) iter))
      with (map Subs.USubscribe (map fst (List.filter (fun e => Z.ltb 0 e.2) iter)))
      by (by rewrite map_map).
    apply NoDup_fmap_2; [intros x y H; by injection H |].
    apply BootFacts.nodup_keys_filter, Hnd. }
  split.
  { intros k. rewrite in_map_iff. split.
    - intros ([k' c] & Hk & Hin). cbn in Hk. injection Hk as ->.
      apply filter_In in Hin as [Hin Hc]. cbn in Hc. apply Z.ltb_lt in Hc.
      by rewrite (BootFacts.in_iter_get m iter k c Hperm Hin).
    - intros H. exists (k, Subs.get m k). split; [reflexivity |].
      apply filter_In. split; [by apply BootFacts.get_in_iter |]. cbn. by apply Z.ltb_lt. }
  split.
  { intros k Hin. apply in_map_iff in Hin as (e & He & _). discriminate. }
  intros k. rewrite in_map_iff. split.
  - intros ([k' c] & Hk & Hin). cbn in Hk. apply BootFacts.str_app_cancel in Hk. subst k'.
    apply filter_In in Hin as [Hin Hc]. cbn in Hc. apply andb_prop in Hc as [Hc Hs].
    apply Z.ltb_lt in Hc. rewrite (BootFacts.in_iter_get m iter k c Hperm Hin).
    split; [done |]. destruct (Subs.ctpSubscribe cli k); [discriminate | done].
  - intros [H Hf]. exists (k, Subs.get m k). split; [reflexivity |].
    apply filter_In. split; [by apply BootFacts.get_in_iter |]. cbn.
    apply andb_true_intro. split; [by apply Z.ltb_lt |].
    destruct (Subs.ctpSubscribe cli k); [done | congruence].
Qed.

Lemma resubscribe_all_spec_witness :
  let m : gmap string Z := {["rb2505" := 2%Z; "cu2505" := 0%Z]} in
  map_to_list m ≡ₚ map_to_list m /\
  In (Subs.USubscribe "rb2505") (Boot.ResubscribeAll Subs.failingClient (map_to_list m)).1.1 /\
  (Boot.ResubscribeAll Subs.failingClient (map_to_list m)).2 = None.
Proof.
  intros m.
  assert (Hp : map_to_list m ≡ₚ map_to_list m) by reflexivity.
  split; [exact Hp |].
  destruct (resubscribe_all_spec Subs.failingClient m (map_to_list m) Hp) as (Hn & _ & Hin & _).
  split; [| exact Hn]. apply Hin. vm_compute. reflexivity.
Defined.

Module BootFacts2.
Import Subs.

Lemma add_existing_n_get (n : nat) (m : gmap string Z) k :
  (0 <= get m k)%Z -> (get m k + 2 * Z.of_nat n <= GoInt.int_max)%Z ->
  get (Boot.add_existing_n n m k) k = (get m k + 2 * Z.of_nat n)%Z.
Proof.
  revert m. induction n as [|n IH]; intros m H0 H1; cbn [Boot.add_existing_n]; [lia |].
  rewrite IH; rewrite SubsMore.get_add_existing; lia.
Qed.

Lemma add_existing_n_ne (n : nat) (m : gmap string Z) k k' :
  k' <> k -> Boot.add_existing_n n m k !! k' = m !! k'.
Proof.
  revert m. induction n as [|n IH]; intros m Hne; cbn [Boot.add_existing_n]; [done |].
  rewrite IH by done. by apply SubsMore.add_existing_ne.
Qed.

(** One restored or started instrument: the counter grows by d + 1
    (d = the added AddExistingSubscription increments) and no upstream
    call is made. *)
Lemma grow_then_subscribe (cli : CTPClient) (m s1 : gmap string Z) k d :
  (0 <= get m k)%Z -> (2 <= d)%Z -> (get m k + d + 1 <= GoInt.int_max)%Z ->
  get s1 k = (get m k + d)%Z -> (forall k', k' <> k -> s1 !! k' = m !! k') ->
  exists s2, Subscribe cli s1 k = (s2, [], None) /\
    get s2 k = (get m k + d + 1)%Z /\ (forall k', k' <> k -> s2 !! k' = m !! k').
Proof.
  intros H0 Hd Hb Hs1 Hne. exists (incr s1 k).
  rewrite SubsMore.subscribe_positive by lia.
  split; [reflexivity |]. split.
  - rewrite SubsFacts.get_incr_eq, Hs1, SubsMore.add1 by lia. lia.
  - intros k' Hk'. rewrite SubsMore.incr_ne by done. by apply Hne.
Qed.

Lemma lookup_get_eq (m m' : gmap string Z) k : m' !! k = m !! k -> get m' k = get m k.
Proof. unfold get. by intros ->. Qed.

Lemma restore_loop_spec (cli : CTPClient) (results : list (string * Z)) (subs : gmap string Z) :
  NoDup (map fst results) ->
  (forall k c, In (k, c) results ->
     (1 <= c)%Z /\ (0 <= get subs k)%Z /\ (get subs k + 2 * c + 1 <= GoInt.int_max)%Z) ->
  (Boot.restore_loop cli results subs).2 = [] /\
  (forall k c, In (k, c) results ->
     get (Boot.restore_loop cli results subs).1 k = (get subs k + 2 * c + 1)%Z) /\
  (forall k, ~ In k (map fst results) -> (Boot.restore_loop cli results subs).1 !! k = subs !! k).
Proof.
  revert subs. induction results as [|[k c] rest IH]; intros subs Hnd Hc.
  - cbn. split; [done |]. split; [done |]. done.
  - apply NoDup_cons in Hnd as [Hk Hnd].
    assert (Hk' : ~ In k (map fst rest)) by (intros H; apply Hk, list_elem_of_In, H).
    destruct (Hc k c (or_introl eq_refl)) as (Hc1 & Hc0 & Hcb).
    set (s1 := Boot.add_existing_n (Z.to_nat c) subs k).
    assert (Hg1 : get s1 k = (get subs k + 2 * c)%Z).
    { subst s1. rewrite add_existing_n_get; rewrite ?Z2Nat.id; lia. }
    destruct (grow_then_subscribe cli subs s1 k (2 * c)) as (s2 & Hsub & Hg2 & Hne2);
      [lia | lia | lia | exact Hg1 | intros; by apply add_existing_n_ne |].
    cbn [Boot.restore_loop]. fold s1. rewrite Hsub.
    assert (Hc' : forall k0 c0, In (k0, c0) rest ->
      (1 <= c0)%Z /\ (0 <= get s2 k0)%Z /\ (get s2 k0 + 2 * c0 + 1 <= GoInt.int_max)%Z).
    { intros k0 c0 Hin.
      assert (Hne : k0 <> k).
      { intros ->. apply Hk', in_map_iff. by exists (k, c0). }
      rewrite (lookup_get_eq _ _ _ (Hne2 k0 Hne)).
      apply Hc. by right. }
    destruct (IH s2 Hnd Hc') as (Hup & Hget & Hframe).
    destruct (Boot.restore_loop cli rest s2) as [s3 ups'] eqn:E. cbn [fst snd] in *.
    split; [by rewrite Hup |]. split.
    + intros k0 c0 [Heq | Hin].
      * injection Heq as <- <-. rewrite (lookup_get_eq _ _ _ (Hframe k Hk')), Hg2. lia.
      * assert (Hne : k0 <> k).
        { intros ->. apply Hk', in_map_iff. by exists (k, c0). }
        rewrite (Hget k0 c0 Hin), (lookup_get_eq _ _ _ (Hne2 k0 Hne)). lia.
    + intros k0 Hn. cbn in Hn.
      assert (Hne : k0 <> k) by (intros ->; apply Hn; by left).
      rewrite Hframe by (intros H; apply Hn; by right). by apply Hne2.
Qed.

Lemma start_subscribe_spec (cli : CTPClient) (symbols : list string) (subs : gmap string Z) :
  NoDup symbols ->
  (forall k, In k symbols -> (0 <= get subs k)%Z /\ (get subs k + 3 <= GoInt.int_max)%Z) ->
  (Boot.start_subscribe cli symbols subs).2 = [] /\
  (forall k, In k symbols -> get (Boot.start_subscribe cli symbols subs).1 k = (get subs k + 3)%Z) /\
  (forall k, ~ In k symbols -> (Boot.start_subscribe cli symbols subs).1 !! k = subs !! k).
Proof.
  revert subs. induction symbols as [|k rest IH]; intros subs Hnd Hc.
  - cbn. split; [done |]. split; [done |]. done.
  - apply NoDup_cons in Hnd as [Hk Hnd].
    assert (Hk' : ~ In k rest) by (intros H; apply Hk, list_elem_of_In, H).
    destruct (Hc k (or_introl eq_refl)) as (Hc0 & Hcb).
    set (s1 := AddExistingSubscription subs k).
    assert (Hg1 : get s1 k = (get subs k + 2)%Z)
      by (subst s1; rewrite SubsMore.get_add_existing; lia).
    destruct (grow_then_subscribe cli subs s1 k 2) as (s2 & Hsub & Hg2 & Hne2);
      [lia | lia | lia | exact Hg1 | intros; by apply SubsMore.add_existing_ne |].
    cbn [Boot.start_subscribe]. fold s1. rewrite Hsub.
    assert (Hc' : forall k0, In k0 rest ->
      (0 <= get s2 k0)%Z /\ (get s2 k0 + 3 <= GoInt.int_max)%Z).
    { intros k0 Hin.
      assert (Hne : k0 <> k) by (intros ->; exact (Hk' Hin)).
      rewrite (lookup_get_eq _ _ _ (Hne2 k0 Hne)). apply Hc. by right. }
    destruct (IH s2 Hnd Hc') as (Hup & Hget & Hframe).
    destruct (Boot.start_subscribe cli rest s2) as [s3 ups'] eqn:E. cbn [fst snd] in *.
    split; [by rewrite Hup |]. split.
    + intros k0 [<- | Hin].
      * rewrite (lookup_get_eq _ _ _ (Hframe k Hk')), Hg2. lia.
      * assert (Hne : k0 <> k) by (intros ->; exact (Hk' Hin)).
        rewrite (Hget k0 Hin), (lookup_get_eq _ _ _ (Hne2 k0 Hne)). reflexivity.
    + intros k0 Hn.
      assert (Hne : k0 <> k) by (intros ->; apply Hn; by left).
      rewrite Hframe by (intros H; apply Hn; by right). by apply Hne2.
Qed.

End BootFacts2.

(** X6: SubscriptionServiceImpl.RestoreSubscriptions, when some
    subscription rows exist and the MarketService is set, with grouped
    rows (instrument, count) for distinct instruments, each count at
    least 1 and the counters non-negative with room for the result,
    sends no upstream subscribe at all (whatever the upstream would
    answer) and returns nil: every restored counter becomes its old value
    plus 2 * count + 1 (AddExistingSubscription adds 2 per row, and the
    following Subscribe sees a positive counter), and the other counters
    keep their entries. *)
Theorem restore_subscriptions_no_upstream (cli : Subs.CTPClient) (ids : list string)
  (results : list (string * Z)) (subs : gmap string Z)
  (Hids : ids <> []) (Hnd : NoDup (map fst results))
  (Hc : forall k c, In (k, c) results ->
     (1 <= c)%Z /\ (0 <= Subs.get subs k)%Z /\ (Subs.get subs k + 2 * c + 1 <= GoInt.int_max)%Z) :
  let r := Boot.RestoreSubscriptions (Some cli) (inr ids) (inr results) subs in
  r.1.2 = [] /\ r.2 = None /\
  (forall k c, In (k, c) results -> Subs.get r.1.1 k = (Subs.get subs k + 2 * c + 1)%Z) /\
  (forall k, ~ In k (map fst results) -> r.1.1 !! k = subs !! k).
Proof.
  cbv zeta. unfold Boot.RestoreSubscriptions.
  destruct ids as [|i ids]; [done |]. cbn [length Nat.eqb].
  destruct (BootFacts2.restore_loop_spec cli results subs Hnd Hc) as (Hup & Hget & Hframe).
  destruct (Boot.restore_loop cli results subs) as [s ups]. cbn in *.
  split; [done |]. split; [done |]. split; [exact Hget | exact Hframe].
Qed.

Lemma restore_subscriptions_no_upstream_witness :
  let results := [("rb2505", 2%Z); ("cu2505", 1%Z)] in
  ["rb2505"; "cu2505"] <> [] /\ NoDup (map fst results) /\
  (Boot.RestoreSubscriptions (Some Subs.okClient) (inr ["rb2505"; "cu2505"]) (inr results) ∅).1.2 = [] /\
  Subs.get (Boot.RestoreSubscriptions (Some Subs.okClient) (inr ["rb2505"; "cu2505"])
              (inr results) ∅).1.1 "rb2505" = 5%Z.
Proof.
  intros results.
  assert (H1 : ["rb2505"; "cu2505"] <> []) by discriminate.
  assert (H2 : NoDup (map fst results)) by (apply NoDup_ListNoDup; vm_compute; repeat constructor; cbn; intuition discriminate).
  assert (H3 : forall k c, In (k, c) results ->
     (1 <= c)%Z /\ (0 <= Subs.get ∅ k)%Z /\ (Subs.get ∅ k + 2 * c + 1 <= GoInt.int_max)%Z).
  { intros k c Hin. cbn in Hin.
    destruct Hin as [Hin | [Hin | []]]; injection Hin as <- <-; vm_compute; repeat split; discriminate. }
  split; [exact H1 |]. split; [exact H2 |].
  destruct (restore_subscriptions_no_upstream Subs.okClient _ results ∅ H1 H2 H3) as (Hup & _ & Hget & _).
  split; [exact Hup |].
  rewrite (Hget "rb2505" 2%Z (or_introl eq_refl)). reflexivity.
Defined.

(** X7: the subscription loop of Engine.Start, over the distinct symbols
    of the active strategies with counters non-negative and at most the
    int maximum minus 3, sends no upstream subscribe (whatever the
    upstream would answer): each symbol's counter grows by 3, because
    AddExistingSubscription adds 2 and the following Subscribe sees a
    positive counter; the other counters keep their entries. *)
Theorem engine_start_subscribe_no_upstream (cli : Subs.CTPClient) (symbols : list string)
  (subs : gmap string Z) (Hnd : NoDup symbols)
  (Hc : forall k, In k symbols -> (0 <= Subs.get subs k)%Z /\ (Subs.get subs k + 3 <= GoInt.int_max)%Z) :
  (Boot.start_subscribe cli symbols subs).2 = [] /\
  (forall k, In k symbols -> Subs.get (Boot.start_subscribe cli symbols subs).1 k = (Subs.get subs k + 3)%Z) /\
  (forall k, ~ In k symbols -> (Boot.start_subscribe cli symbols subs).1 !! k = subs !! k).
Proof. exact (BootFacts2.start_subscribe_spec cli symbols subs Hnd Hc). Qed.

Lemma engine_start_subscribe_no_upstream_witness :
  NoDup ["rb2505"] /\
  (Boot.start_subscribe Subs.okClient ["rb2505"] ∅).2 = [] /\
  Subs.get (Boot.start_subscribe Subs.okClient ["rb2505"] ∅).1 "rb2505" = 3%Z.
Proof.
  assert (H1 : NoDup ["rb2505"]) by (apply NoDup_singleton).
  assert (H2 : forall k, In k ["rb2505"] ->
     (0 <= Subs.get ∅ k)%Z /\ (Subs.get ∅ k + 3 <= GoInt.int_max)%Z).
  { intros k [<- | []]. vm_compute. split; discriminate. }
  destruct (engine_start_subscribe_no_upstream Subs.okClient ["rb2505"] ∅ H1 H2) as (Hup & Hget & _).
  split; [exact H1 |]. split; [exact Hup |].
  rewrite (Hget "rb2505" (or_introl eq_refl)). reflexivity.
Defined.

Module HandlerMore.
Import Handler Json.

Lemma trades_update_order st id cols : (update_order st id cols).(trades) = st.(trades).
Proof. reflexivity. Qed.

Lemma trades_save_position st p : (save_position st p).(trades) = st.(trades).
Proof. unfold save_position. by destruct existsb. Qed.

Lemma trades_updatePosition st o pl : (updatePosition st o pl).(trades) = st.(trades).
Proof.
  unfold updatePosition.
  destruct find; [apply trades_save_position |]. by destruct String.eqb.
Qed.

Lemma trades_notify st u d : (notifyUser st u d).(trades) = st.(trades).
Proof. unfold notifyUser. by destruct notifier. Qed.

Lemma positions_create_trade st tr : (create_trade st tr).(positions) = st.(positions).
Proof. unfold create_trade. by destruct existsb. Qed.

Lemma positions_notify st u d : (notifyUser st u d).(positions) = st.(positions).
Proof. unfold notifyUser. by destruct notifier. Qed.

Lemma orderLogs_notify st u d : (notifyUser st u d).(orderLogs) = st.(orderLogs).
Proof. unfold notifyUser. by destruct notifier. Qed.

Lemma broadcasts_notify st u d :
  (notifyUser st u d).(broadcasts)
  = if st.(notifier) then (st.(broadcasts) ++ [d])%list else st.(broadcasts).
Proof. unfold notifyUser. by destruct notifier. Qed.

(** The key updatePosition looks a row up by. *)
Definition pos_key (order : Order.t) (p : Position.t) : bool :=
  String.eqb p.(Position.UserID) order.(Order.UserID)
  && String.eqb p.(Position.InstrumentID) order.(Order.InstrumentID)
  && String.eqb p.(Position.PosiDirection) (posiDirOf order).

Lemma same_key_pos_key order p x :
  Position.same_key p x = true -> pos_key order x = pos_key order p.
Proof.
  unfold Position.same_key, pos_key.
  intros H. apply andb_prop in H as [H _]. apply andb_prop in H as [H Hd].
  apply andb_prop in H as [Hu Hi].
  apply String.eqb_eq in Hu, Hi, Hd. by rewrite Hu, Hi, Hd.
Qed.

Lemma filter_map_replace order p (l : list Position.t) :
  pos_key order p = true ->
  List.filter (fun x => negb (pos_key order x))
    (map (fun x => if Position.same_key p x then p else x) l)
  = List.filter (fun x => negb (pos_key order x)) l.
Proof.
  intros Hp. induction l as [|x l IH]; [done |]. cbn.
  destruct (Position.same_key p x) eqn:E.
  - rewrite (same_key_pos_key order p x E), Hp. cbn. exact IH.
  - destruct (negb (pos_key order x)); [f_equal |]; exact IH.
Qed.

Lemma pos_key_adjust order pos tv tp :
  pos_key order (adjustPosition pos order tv tp) = pos_key order pos.
Proof. unfold adjustPosition. by destruct String.eqb. Qed.

Lemma pos_key_new order tv tp :
  pos_key order (newPosition order (posiDirOf order) tv tp) = true.
Proof. unfold pos_key, newPosition. cbn. by rewrite !String.eqb_refl. Qed.

Lemma updatePosition_frame st order pl :
  List.filter (fun x => negb (pos_key order x)) (updatePosition st order pl).(positions)
  = List.filter (fun x => negb (pos_key order x)) st.(positions).
Proof.
  unfold updatePosition.
  destruct (find _ st.(positions)) as [pos|] eqn:E.
  - apply find_some in E as [_ Hk]. fold (pos_key order pos) in Hk.
    unfold save_position.
    destruct (existsb _ st.(positions)); cbn.
    + apply filter_map_replace. by rewrite pos_key_adjust.
    + rewrite List.filter_app. cbn. rewrite pos_key_adjust, Hk. cbn. by rewrite app_nil_r.
  - destruct String.eqb; cbn; [| reflexivity].
    rewrite List.filter_app. cbn. rewrite pos_key_new. cbn. by rewrite app_nil_r.
Qed.

Lemma updatePosition_close_none st order pl :
  order.(Order.CombOffsetFlag) <> Model.OffsetOpen ->
  (forall p, In p st.(positions) -> pos_key order p = false) ->
  (updatePosition st order pl).(positions) = st.(positions).
Proof.
  intros Hc Hn. unfold updatePosition.
  destruct (find _ st.(positions)) as [pos|] eqn:E.
  - apply find_some in E as [Hin Hk]. fold (pos_key order pos) in Hk.
    rewrite (Hn pos Hin) in Hk. discriminate.
  - replace (String.eqb order.(Order.CombOffsetFlag) Model.OffsetOpen) with false
      by (symmetry; by apply String.eqb_neq). reflexivity.
Qed.

End HandlerMore.

(** X8: ERR_ORDER for the order matched by RequestID, whatever its
    current status (there is no terminal-state guard): every row with
    the order's key gets status "4" (NoTradeNotQueueing) and StatusMsg =
    the payload's ErrorMsg, keeping its traded volume and reference, and
    the other rows are untouched; one OrderLog entry (old status -> "4",
    the message) is appended, the response is broadcast when a notifier
    is set, and trades and positions are unchanged. *)
Theorem err_order_rejects (st : Handler.State) (resp : Handler.TradeResponse)
  (payload : gmap string Json.JValue) (order : Order.t)
  (Hty : resp.(Handler.Type_) = "ERR_ORDER") (Hpl : resp.(Handler.Payload) = Handler.PMap payload)
  (Hfound : Handler.find_order_by_ref st.(Handler.orders) resp.(Handler.RequestID) = Some order) :
  let msg := Json.str_field payload "ErrorMsg" in
  let st' := Handler.ProcessResponse st resp in
  Forall2 (fun o o' =>
      if Z.eqb o.(Order.ID) order.(Order.ID) then
        o'.(Order.OrderStatus) = Model.OrderStatusNoTradeNotQueueing /\
        o'.(Order.StatusMsg) = msg /\
        o'.(Order.VolumeTraded) = o.(Order.VolumeTraded) /\
        o'.(Order.OrderRef) = o.(Order.OrderRef)
      else o' = o)
    st.(Handler.orders) st'.(Handler.orders) /\
  st'.(Handler.orderLogs)
    = (st.(Handler.orderLogs)
       ++ [{| OrderLog.OrderID := order.(Order.ID); OrderLog.OldStatus := order.(Order.OrderStatus);
              OrderLog.NewStatus := Model.OrderStatusNoTradeNotQueueing;
              OrderLog.Message := msg |}])%list /\
  st'.(Handler.broadcasts)
    = (if st.(Handler.notifier) then (st.(Handler.broadcasts) ++ [resp])%list
       else st.(Handler.broadcasts)) /\
  st'.(Handler.trades) = st.(Handler.trades) /\
  st'.(Handler.positions) = st.(Handler.positions).
Proof.
  cbv zeta. unfold Handler.ProcessResponse. rewrite Hpl, Hty. cbn -[Handler.handleErrOrder].
  unfold Handler.handleErrOrder. rewrite Hfound.
  rewrite HandlerFacts.orders_notify, HandlerMore.orderLogs_notify, HandlerMore.broadcasts_notify,
    HandlerMore.trades_notify, HandlerMore.positions_notify.
  cbn [Handler.update_order Handler.with_orders Handler.create_log Handler.with_orderLogs
       Handler.orders Handler.orderLogs Handler.broadcasts Handler.notifier Handler.trades
       Handler.positions].
  split; [| repeat split].
  apply HandlerFacts.Forall2_map_self. intros o _.
  destruct (Z.eqb o.(Order.ID) order.(Order.ID)); [| reflexivity].
  cbn. repeat split.
Qed.

Lemma err_order_rejects_witness :
  let st := Samples.state_with [Samples.order_rb Model.OrderStatusAllTraded 1 1 "0" "0"] [] in
  let pl : gmap string Json.JValue := list_to_map [("ErrorMsg", Json.JString "rejected")] in
  let resp := Samples.rtn "ERR_ORDER" [("ErrorMsg", Json.JString "rejected")] in
  let order := Samples.order_rb Model.OrderStatusAllTraded 1 1 "0" "0" in
  resp.(Handler.Type_) = "ERR_ORDER" /\ resp.(Handler.Payload) = Handler.PMap pl /\
  Handler.find_order_by_ref st.(Handler.orders) resp.(Handler.RequestID) = Some order /\
  (Handler.ProcessResponse st resp).(Handler.positions) = st.(Handler.positions).
Proof.
  intros st pl resp order.
  split; [reflexivity |]. split; [reflexivity |]. split; [reflexivity |].
  destruct (err_order_rejects st resp pl order eq_refl eq_refl eq_refl) as (_ & _ & _ & _ & Hp).
  exact Hp.
Defined.



(** X10: RTN_TRADE for the order matched by RequestID appends one Trade
    row built from the order and the payload, unless a trade with the
    same TradeID is already stored, in which case the trade table is
    unchanged; in both cases every row with the order's key still has
    int(Volume) added to its VolumeTraded, so a re-delivered trade report
    is counted twice. *)
Theorem rtn_trade_records_trade (st : Handler.State) (resp : Handler.TradeResponse)
  (payload : gmap string Json.JValue) (order : Order.t)
  (Hty : resp.(Handler.Type_) = "RTN_TRADE") (Hpl : resp.(Handler.Payload) = Handler.PMap payload)
  (Hfound : Handler.find_order_by_ref st.(Handler.orders) resp.(Handler.RequestID) = Some order)
  (Hrange : GoInt.in_int
     (order.(Order.VolumeTraded) + Json.float_to_int (Json.num_field payload "Volume"))) :
  let tid := Json.str_field payload "TradeID" in
  let v := Json.float_to_int (Json.num_field payload "Volume") in
  let tr := {| Trade.OrderID := order.(Order.ID); Trade.OrderRef := order.(Order.OrderRef);
               Trade.OrderSysID := order.(Order.OrderSysID); Trade.TradeID := tid;
               Trade.InstrumentID := order.(Order.InstrumentID);
               Trade.Direction := order.(Order.Direction);
               Trade.OffsetFlag := order.(Order.CombOffsetFlag);
               Trade.Price := Json.num_field payload "Price"; Trade.Volume := v;
               Trade.StrategyID := order.(Order.StrategyID) |} in
  let st' := Handler.ProcessResponse st resp in
  st'.(Handler.trades)
    = (if existsb (fun x => String.eqb x.(Trade.TradeID) tid) st.(Handler.trades)
       then st.(Handler.trades) else (st.(Handler.trades) ++ [tr])%list) /\
  Forall2 (fun o o' => o.(Order.ID) = order.(Order.ID) ->
             o'.(Order.VolumeTraded) = (order.(Order.VolumeTraded) + v)%Z)
    st.(Handler.orders) st'.(Handler.orders).
Proof.
  cbv zeta. unfold Handler.ProcessResponse. rewrite Hpl, Hty. cbn -[Handler.handleRtnTrade].
  unfold Handler.handleRtnTrade. rewrite Hfound.
  rewrite HandlerMore.trades_notify, HandlerMore.trades_updatePosition,
    HandlerMore.trades_update_order, HandlerFacts.orders_notify,
    HandlerFacts.orders_updatePosition.
  split.
  - unfold Handler.create_trade. by destruct existsb.
  - cbn [Handler.update_order Handler.with_orders Handler.orders].
    rewrite HandlerFacts.orders_create_trade.
    apply HandlerFacts.Forall2_map_self. intros o _ Hid.
    rewrite Hid, Z.eqb_refl. cbn. by rewrite GoIntFacts.add_small by exact Hrange.
Qed.

Lemma rtn_trade_records_trade_witness :
  let t1 := {| Trade.OrderID := 1; Trade.OrderRef := "000001000001"; Trade.OrderSysID := "sys1";
               Trade.TradeID := "t1"; Trade.InstrumentID := "rb2505"; Trade.Direction := "0";
               Trade.OffsetFlag := "0"; Trade.Price := 3000; Trade.Volume := 1;
               Trade.StrategyID := None |} in
  let order := Samples.order_rb Model.OrderStatusPartTradedQueueing 1 2 "0" "0" in
  let st := {| Handler.orders := [order]; Handler.trades := [t1]; Handler.orderLogs := [];
               Handler.positions := []; Handler.notifier := true; Handler.broadcasts := [] |} in
  let pl : gmap string Json.JValue :=
    list_to_map [("Volume", Json.JNumber 1); ("Price", Json.JNumber 3000);
                 ("TradeID", Json.JString "t1")] in
  let resp := Samples.rtn "RTN_TRADE" [("Volume", Json.JNumber 1); ("Price", Json.JNumber 3000);
                                       ("TradeID", Json.JString "t1")] in
  resp.(Handler.Type_) = "RTN_TRADE" /\ resp.(Handler.Payload) = Handler.PMap pl /\
  Handler.find_order_by_ref st.(Handler.orders) resp.(Handler.RequestID) = Some order /\
  GoInt.in_int (order.(Order.VolumeTraded) + Json.float_to_int (Json.num_field pl "Volume")) /\
  (Handler.ProcessResponse st resp).(Handler.trades) = [t1].
Proof.
  intros t1 order st pl resp.
  assert (Hr : GoInt.in_int (order.(Order.VolumeTraded) + Json.float_to_int (Json.num_field pl "Volume")))
    by (vm_compute; split; discriminate).
  split; [reflexivity |]. split; [reflexivity |]. split; [reflexivity |]. split; [exact Hr |].
  destruct (rtn_trade_records_trade st resp pl order eq_refl eq_refl eq_refl Hr) as [Ht _].
  rewrite Ht. reflexivity.
Defined.

(** X11: an RTN_TRADE for the order matched by RequestID changes no
    position row of another user, instrument or side than (the order's
    user, the order's instrument, posiDirOf order): those rows stay, in
    order.  A close trade (offset other than "0") for which no such row
    exists leaves the position table unchanged: no row is created. *)
Theorem rtn_trade_positions_frame (st : Handler.State) (resp : Handler.TradeResponse)
  (payload : gmap string Json.JValue) (order : Order.t)
  (Hty : resp.(Handler.Type_) = "RTN_TRADE") (Hpl : resp.(Handler.Payload) = Handler.PMap payload)
  (Hfound : Handler.find_order_by_ref st.(Handler.orders) resp.(Handler.RequestID) = Some order) :
  let key (p : Position.t) :=
    String.eqb p.(Position.UserID) order.(Order.UserID)
    && String.eqb p.(Position.InstrumentID) order.(Order.InstrumentID)
    && String.eqb p.(Position.PosiDirection) (Handler.posiDirOf order) in
  let st' := Handler.ProcessResponse st resp in
  List.filter (fun p => negb (key p)) st'.(Handler.positions)
    = List.filter (fun p => negb (key p)) st.(Handler.positions) /\
  (order.(Order.CombOffsetFlag) <> Model.OffsetOpen ->
   (forall p, In p st.(Handler.positions) -> key p = false) ->
   st'.(Handler.positions) = st.(Handler.positions)).
Proof.
  cbv zeta. unfold Handler.ProcessResponse. rewrite Hpl, Hty. cbn -[Handler.handleRtnTrade].
  unfold Handler.handleRtnTrade. rewrite Hfound.
  rewrite HandlerMore.positions_notify.
  split.
  - etransitivity; [apply (HandlerMore.updatePosition_frame _ order payload) |].
    cbn. by rewrite HandlerMore.positions_create_trade.
  - intros Hc Hn. rewrite HandlerMore.updatePosition_close_none; [| exact Hc |].
    + cbn. apply HandlerMore.positions_create_trade.
    + cbn. rewrite HandlerMore.positions_create_trade. exact Hn.
Qed.

Lemma rtn_trade_positions_frame_witness :
  let order := Samples.order_rb Model.OrderStatusNoTradeQueueing 0 2 Model.DirectionBuy
                 Model.OffsetClose in
  let st := Samples.state_with [order] [Samples.long_rb 3 0 3] in
  let pl : gmap string Json.JValue :=
    list_to_map [("Volume", Json.JNumber 2); ("Price", Json.JNumber 3000);
                 ("TradeID", Json.JString "t1")] in
  let resp := Samples.rtn "RTN_TRADE" [("Volume", Json.JNumber 2); ("Price", Json.JNumber 3000);
                                       ("TradeID", Json.JString "t1")] in
  resp.(Handler.Type_) = "RTN_TRADE" /\ resp.(Handler.Payload) = Handler.PMap pl /\
  Handler.find_order_by_ref st.(Handler.orders) resp.(Handler.RequestID) = Some order /\
  (Handler.ProcessResponse st resp).(Handler.positions) = [Samples.long_rb 3 0 3].
Proof.
  intros order st pl resp.
  split; [reflexivity |]. split; [reflexivity |]. split; [reflexivity |].
  destruct (rtn_trade_positions_frame st resp pl order eq_refl eq_refl eq_refl) as [_ Hc].
  apply Hc.
  - discriminate.
  - intros p [<- | []]. reflexivity.
Defined.



(** X13: a condition-order runner whose operator is none of ">", ">=",
    "<" and "<=" never fires: every tick returns it unchanged with no
    order, so it emits nothing on any tick stream. *)
Theorem unknown_operator_never_fires (r : Runner.ConditionOrderRunner) (ticks : list (Z * Q))
  (Hop : ~ In r.(Runner.cfg).(Runner.Operator) [">"; ">="; "<"; "<="]) :
  (forall t p, Runner.OnTick r t p = (r, None)) /\ Runner.run_ticks r ticks = (r, []).
Proof.
  assert (Hm : forall p, Runner.condition_match r.(Runner.cfg) p = false).
  { intros p. unfold Runner.condition_match.
    destruct (String.eqb_spec r.(Runner.cfg).(Runner.Operator) ">") as [E|_];
      [exfalso; apply Hop; rewrite E; by left |].
    destruct (String.eqb_spec r.(Runner.cfg).(Runner.Operator) ">=") as [E|_];
      [exfalso; apply Hop; rewrite E; right; by left |].
    destruct (String.eqb_spec r.(Runner.cfg).(Runner.Operator) "<") as [E|_];
      [exfalso; apply Hop; rewrite E; right; right; by left |].
    destruct (String.eqb_spec r.(Runner.cfg).(Runner.Operator) "<=") as [E|_];
      [exfalso; apply Hop; rewrite E; right; right; right; by left |].
    reflexivity. }
  assert (Ht : forall t p, Runner.OnTick r t p = (r, None)).
  { intros t p. unfold Runner.OnTick. rewrite Hm. by destruct (Runner.triggered r). }
  split; [exact Ht |].
  induction ticks as [|[t p] rest IH]; [reflexivity |].
  cbn [Runner.run_ticks]. rewrite Ht, IH. reflexivity.
Qed.

Lemma unknown_operator_never_fires_witness :
  let r := Runner.NewConditionOrderRunner 7 "rb2505"
             {| Runner.TriggerPrice := 3000; Runner.Operator := "=>";
                Runner.Action := "open_long"; Runner.Volume := 1 |} in
  ~ In r.(Runner.cfg).(Runner.Operator) [">"; ">="; "<"; "<="] /\
  Runner.run_ticks r [(1700000000%Z, 3000%Q); (1700000001%Z, 3100%Q)] = (r, []).
Proof.
  intros r.
  assert (H : ~ In r.(Runner.cfg).(Runner.Operator) [">"; ">="; "<"; "<="]).
  { cbn. intros [E | [E | [E | [E | []]]]]; discriminate. }
  split; [exact H |]. exact (proj2 (unknown_operator_never_fires r _ H)).
Defined.

Module ExecFacts.
Import Runner Exec.

Lemma fresh_count_insert_gmap (ex : gmap string (list ConditionOrderRunner)) k l :
  (fresh_count (<[k := l]> ex) + fresh (default [] (ex !! k)) = fresh_count ex + fresh l)%nat.
Proof.
  unfold fresh_count.
  rewrite <- insert_delete_eq.
  rewrite (map_to_list_insert (delete k ex) k l) by apply lookup_delete_eq. cbn.
  destruct (ex !! k) as [l0|] eqn:E; cbn.
  - pose proof (map_to_list_insert (delete k ex) k l0 (lookup_delete_eq ex k)) as P.
    rewrite (insert_delete_id ex k l0 E) in P. rewrite P. cbn. unfold fresh. lia.
  - rewrite (delete_id ex k E). cbn. unfold fresh. cbn. rewrite Nat.add_0_r. apply Nat.add_comm.
Qed.

Lemma fresh_count_insert (ex : Executor) k l :
  (fresh_count (<[k := l]> ex) + fresh (default [] (ex !! k)) = fresh_count ex + fresh l)%nat.
Proof. exact (fresh_count_insert_gmap ex k l). Qed.






Lemma tick_all_fresh rs t p :
  (fresh (tick_all rs t p).1 + length (tick_all rs t p).2 = fresh rs)%nat.
Proof.
  induction rs as [|r rest IH]; [reflexivity |].
  cbn [tick_all]. destruct (tick_all rest t p) as [rest' os] eqn:E. cbn in IH.
  unfold OnTick. destruct (triggered r) eqn:Hr.
  - cbn. unfold fresh in *. cbn. rewrite Hr. cbn. exact IH.
  - destruct (condition_match (cfg r) p).
    + destruct (action_direction_offset _). cbn. unfold fresh in *. cbn. rewrite Hr. cbn. lia.
    + cbn. unfold fresh in *. cbn. rewrite Hr. cbn. lia.
Qed.

Lemma OnMarketData_fresh ex sym t p :
  (fresh_count (OnMarketData ex sym t p).1 + length (OnMarketData ex sym t p).2
   = fresh_count ex)%nat.
Proof.
  unfold OnMarketData. destruct (ex !! sym) as [[|r rs]|] eqn:E;
    [cbn [fst snd length]; lia | | cbn [fst snd length]; lia].
  pose proof (tick_all_fresh (r :: rs) t p) as Ht.
  destruct (tick_all (r :: rs) t p) as [rs' os] eqn:Et. cbn [fst snd] in *.
  pose proof (fresh_count_insert ex sym rs') as Hi. rewrite E in Hi. cbn [default id] in Hi. lia.
Qed.

Lemma feed_fresh ex ticks :
  (fresh_count (feed ex ticks).1 + length (feed ex ticks).2 = fresh_count ex)%nat.
Proof.
  revert ex. induction ticks as [|[[sym t] p] rest IH]; intros ex; [cbn; lia |].
  cbn [feed]. pose proof (OnMarketData_fresh ex sym t p) as H1.
  destruct (OnMarketData ex sym t p) as [ex1 os] eqn:E. cbn in H1.
  specialize (IH ex1). destruct (feed ex1 rest) as [ex2 os'] eqn:E2. cbn in *.
  rewrite length_app. lia.
Qed.

End ExecFacts.


(** X15: runners fire at most once in total: over any stream of market
    data fed to Executor.OnMarketData, the number of orders emitted plus
    the number of runners still fresh afterwards equals the number of
    fresh runners at the start, so an executor emits at most one order
    per fresh runner; a symbol with no runners yields no order and
    leaves the executor unchanged. *)
Theorem executor_orders_bounded (ex : Exec.Executor) (ticks : list (string * Z * Q)) :
  (Exec.fresh_count (Exec.feed ex ticks).1 + length (Exec.feed ex ticks).2
   = Exec.fresh_count ex)%nat /\
  (length (Exec.feed ex ticks).2 <= Exec.fresh_count ex)%nat /\
  (forall sym t p, ex !! sym = None \/ ex !! sym = Some [] ->
     Exec.OnMarketData ex sym t p = (ex, [])).
Proof.
  pose proof (ExecFacts.feed_fresh ex ticks) as H.
  split; [exact H |]. split; [lia |].
  intros sym t p [E | E]; unfold Exec.OnMarketData; by rewrite E.
Qed.

(** X16: TradingServiceImpl.CancelOrder over the Redis client returns
    404 "order not found" when no row has the ID and 400 ErrOrderTerminal
    when the row found (the first with that ID) has status "0", "5" or
    "4", both without touching the queue; for any other status
    (including "2", part traded not queueing) it pushes one CANCEL_ORDER
    command built from that row (RequestID "cancel-" ++ OrderRef, the
    row's FrontID and SessionID, ActionFlag "0") and returns nil, or,
    when the push fails, leaves the queue as it was and returns a 500
    error wrapping the Redis error. *)
Theorem cancel_order_outcomes (redisOk : bool) (db : list Order.t)
    (queue : list Dispatch.Command) (orderID : Z) :
  let res := Trading.CancelOrder (Client.CancelOrder redisOk) db queue orderID in
  ((forall o, In o db -> o.(Order.ID) <> orderID) ->
     res = (queue, Some (Domain.NewNotFoundError "order not found"))) /\
  (forall o, Trading.first_by_id db orderID = Some o ->
     In o db /\ o.(Order.ID) = orderID /\
     (In o.(Order.OrderStatus) ["0"; "5"; "4"] ->
        res = (queue, Some (AppError 400 "order already in terminal state" Domain.ErrOrderTerminal))) /\
     (~ In o.(Order.OrderStatus) ["0"; "5"; "4"] ->
        res = if redisOk then (Client.CancelOrderCmd o :: queue, None)
              else (queue, Some (NewInternalError "failed to send cancel command"
                                   (ErrBase "failed to push command to redis"))))) /\
  (forall o, let c := Client.CancelOrderCmd o in
     c.(Dispatch.Type_) = "CANCEL_ORDER" /\
     c.(Dispatch.RequestID) = ("cancel-" ++ o.(Order.OrderRef))%string /\
     c.(Dispatch.Payload) !! "OrderRef" = Some (Json.JString o.(Order.OrderRef)) /\
     c.(Dispatch.Payload) !! "InstrumentID" = Some (Json.JString o.(Order.InstrumentID)) /\
     c.(Dispatch.Payload) !! "ExchangeID" = Some (Json.JString o.(Order.ExchangeID)) /\
     c.(Dispatch.Payload) !! "FrontID" = Some (Json.JNumber (inject_Z o.(Order.FrontID))) /\
     c.(Dispatch.Payload) !! "SessionID" = Some (Json.JNumber (inject_Z o.(Order.SessionID))) /\
     c.(Dispatch.Payload) !! "ActionFlag" = Some (Json.JString "0")).
Proof.
  cbv zeta. split; [| split].
  - intros Hno. unfold Trading.CancelOrder.
    destruct (Trading.first_by_id db orderID) as [o|] eqn:E; [| reflexivity].
    unfold Trading.first_by_id in E. apply find_some in E as [Hin Heq].
    apply Z.eqb_eq in Heq. exfalso. exact (Hno o Hin Heq).
  - intros o E. pose proof E as E'. unfold Trading.first_by_id in E'.
    apply find_some in E' as [Hin Heq]. apply Z.eqb_eq in Heq.
    split; [exact Hin |]. split; [exact Heq |].
    unfold Trading.CancelOrder. rewrite E.
    unfold Model.OrderStatusAllTraded, Model.OrderStatusCanceled,
      Model.OrderStatusNoTradeNotQueueing. split.
    + intros [H | [H | [H | []]]]; rewrite <- H; reflexivity.
    + intros Hn.
      destruct (String.eqb_spec o.(Order.OrderStatus) "0") as [H|_]; [exfalso; apply Hn; rewrite H; by left |].
      destruct (String.eqb_spec o.(Order.OrderStatus) "5") as [H|_]; [exfalso; apply Hn; rewrite H; right; by left |].
      destruct (String.eqb_spec o.(Order.OrderStatus) "4") as [H|_]; [exfalso; apply Hn; rewrite H; right; right; by left |].
      cbn [orb]. unfold Client.CancelOrder, Dispatch.SendCommand. by destruct redisOk.
  - intros o. repeat split; reflexivity.
Qed.

Module FmtFacts.
Import Fmt.

Lemma digits_aux_length (fuel k : nat) (n : Z) (acc : string) :
  (1 <= k)%nat -> (k <= fuel)%nat -> (0 <= n < 10 ^ Z.of_nat k)%Z ->
  (String.length (digits_aux fuel n acc) <= k + String.length acc)%nat.
Proof.
  revert k n acc. induction fuel as [|f IH]; intros k n acc Hk Hf Hn; [lia |].
  cbn [digits_aux]. destruct (Z.eqb_spec (Z.quot n 10) 0) as [E|E].
  - cbn. lia.
  - assert (Hk2 : (2 <= k)%nat).
    { destruct (Nat.le_gt_cases 2 k) as [|Hlt]; [assumption |].
      assert (k = 1%nat) by lia. subst k. cbn in Hn.
      exfalso. apply E. apply Z.quot_small. lia. }
    assert (Hq : (0 <= Z.quot n 10 < 10 ^ Z.of_nat (k - 1))%Z).
    { rewrite Z.quot_div_nonneg by lia. split; [apply Z.div_pos; lia |].
      apply Z.div_lt_upper_bound; [lia |].
      replace (10 * 10 ^ Z.of_nat (k - 1))%Z with (10 ^ Z.of_nat k)%Z; [lia |].
      rewrite <- Z.pow_succ_r by lia. f_equal. lia. }
    specialize (IH (k - 1)%nat (Z.quot n 10) (String (digit (Z.rem n 10)) acc)).
    cbn [String.length] in IH. lia.
Qed.

Lemma str_length_append (s1 s2 : string) :
  String.length (s1 ++ s2) = (String.length s1 + String.length s2)%nat.
Proof. induction s1 as [|c s1 IH]; [reflexivity |]. simpl. f_equal. exact IH. Qed.

Lemma zeros_length (k : nat) : String.length (zeros k) = k.
Proof. induction k as [|k IH]; cbn; [reflexivity | by rewrite IH]. Qed.

Lemma pad_length (w : nat) (s : string) :
  (String.length s <= w)%nat -> String.length (pad w s) = w.
Proof. intros H. unfold pad. rewrite str_length_append, zeros_length. lia. Qed.

Lemma fmt_0d_6_length (z : Z) : (0 <= z < 1000000)%Z -> String.length (fmt_0d 6 z) = 6%nat.
Proof.
  intros Hz. unfold fmt_0d. destruct (Z.ltb_spec z 0) as [|_]; [lia |].
  apply pad_length. unfold digits.
  pose proof (digits_aux_length 20 6 z "") as H. cbn [String.length] in H.
  apply H; cbn; lia.
Qed.

End FmtFacts.

(** X17: the OrderRef PlaceOrder stamps on an order without one is
    `%06d%06d` of (Unix seconds mod 10^6, microseconds): for a clock
    reading with non-negative seconds it has 12 characters, and it
    repeats every 10^6 seconds (about 11.6 days), so two orders placed
    that far apart at the same microsecond get the same reference; an
    OrderRef already set is kept, and the status is "S" either way. *)
Theorem order_ref_wraps (unixSec nanos k : Z) (o1 o2 : Order.t)
  (Hs : (0 <= unixSec)%Z) (Hk : (0 <= k)%Z) (Hn : (0 <= nanos < 1000000000)%Z)
  (H1 : o1.(Order.OrderRef) = "") (H2 : o2.(Order.OrderRef) = "") :
  String.length (Dispatch.prepareOrder unixSec nanos o1).(Order.OrderRef) = 12%nat /\
  (Dispatch.prepareOrder (unixSec + k * 1000000) nanos o2).(Order.OrderRef)
    = (Dispatch.prepareOrder unixSec nanos o1).(Order.OrderRef) /\
  (forall o s n, o.(Order.OrderRef) <> "" ->
     (Dispatch.prepareOrder s n o).(Order.OrderRef) = o.(Order.OrderRef)) /\
  (forall o s n, (Dispatch.prepareOrder s n o).(Order.OrderStatus) = "S").
Proof.
  unfold Dispatch.prepareOrder. rewrite H1, H2. cbn [String.eqb Order.set_column Order.OrderRef].
  split; [| split; [| split]].
  - unfold Dispatch.orderRefFromClock. rewrite FmtFacts.str_length_append.
    rewrite !FmtFacts.fmt_0d_6_length; [reflexivity | |].
    + rewrite Z.quot_div_nonneg by lia. split; [apply Z.div_pos; lia |].
      apply Z.div_lt_upper_bound; lia.
    + rewrite Z.rem_mod_nonneg by lia. apply Z.mod_pos_bound. lia.
  - unfold Dispatch.orderRefFromClock. f_equal. f_equal.
    rewrite !Z.rem_mod_nonneg by lia. apply Z_mod_plus_full.
  - intros o s n Hne. destruct (String.eqb_spec o.(Order.OrderRef) "") as [E|_];
      [contradiction | reflexivity].
  - intros o s n. destruct (String.eqb o.(Order.OrderRef) ""); reflexivity.
Qed.

Lemma order_ref_wraps_witness :
  let o := Samples.order_rb "" 0 1 "0" "0" in
  let o0 := Order.set_column o (Order.ColOrderRef "") in
  (0 <= 1700000000)%Z /\ (0 <= 1)%Z /\ (0 <= 123456789 < 1000000000)%Z /\
  o0.(Order.OrderRef) = "" /\
  (Dispatch.prepareOrder (1700000000 + 1 * 1000000) 123456789 o0).(Order.OrderRef)
    = (Dispatch.prepareOrder 1700000000 123456789 o0).(Order.OrderRef).
Proof.
  intros o o0.
  assert (Ha : (0 <= 1700000000)%Z) by lia.
  assert (Hb : (0 <= 1)%Z) by lia.
  assert (Hc : (0 <= 123456789 < 1000000000)%Z) by lia.
  assert (Hd : o0.(Order.OrderRef) = "") by reflexivity.
  split; [exact Ha |]. split; [exact Hb |]. split; [exact Hc |]. split; [exact Hd |].
  exact (proj1 (proj2 (order_ref_wraps 1700000000 123456789 1 o0 o0 Ha Hb Hc Hd Hd))).
Defined.

Module SubSvcFacts.
Import Subs SubSvc.















End SubSvcFacts.




(** X20: the engine's SubscriptionState never stores a zero or negative
    count: if every count is positive, AddSubscription (with room in the
    Go int) and RemoveSubscription keep them positive, since the entry
    is deleted when its count drops to 0, and RemoveSubscription of a
    symbol without an entry changes nothing and reports false; hence
    GetActiveSymbols lists exactly the symbols whose count is positive. *)
Theorem engine_registry_positive (m : gmap string Z) (k : string)
  (Hpos : map_Forall (fun _ v => (0 < v)%Z) m)
  (Hb : (Subs.get m k + 1 <= GoInt.int_max)%Z) :
  map_Forall (fun _ v => (0 < v)%Z) (Subs.AddSubscription m k).1 /\
  map_Forall (fun _ v => (0 < v)%Z) (Subs.RemoveSubscription m k).1 /\
  (m !! k = None -> Subs.RemoveSubscription m k = (m, false)) /\
  (forall k', k' ∈ Subs.GetActiveSymbols m <-> (0 < Subs.get m k')%Z).
Proof.
  assert (Hnn : (0 <= Subs.get m k)%Z).
  { apply SubsMore.get_nonneg. intros j v Hj. exact (Z.lt_le_incl _ _ (Hpos j v Hj)). }
  split; [| split; [| split]].
  - unfold Subs.AddSubscription, Subs.incr. cbn [fst].
    apply map_Forall_insert_2; [| exact Hpos].
    rewrite SubsMore.add1 by lia. lia.
  - unfold Subs.RemoveSubscription.
    destruct (Z.ltb_spec 0 (Subs.get m k)) as [H0|H0]; [| exact Hpos].
    rewrite SubsFacts.get_decr_eq, SubsMore.sub1 by lia.
    destruct (Z.eqb_spec (Subs.get m k - 1) 0) as [E|E]; cbn [fst].
    + unfold Subs.decr. rewrite delete_insert_eq. by apply map_Forall_delete.
    + unfold Subs.decr. rewrite SubsMore.sub1 by lia.
      apply map_Forall_insert_2; [lia | exact Hpos].
  - intros E. unfold Subs.RemoveSubscription, Subs.get. rewrite E. reflexivity.
  - intros k'. unfold Subs.GetActiveSymbols, Subs.get. rewrite elem_of_dom.
    destruct (m !! k') as [v|] eqn:E; cbn.
    + split; [intros _; exact (Hpos k' v E) | intros _; by exists v].
    + split; [intros [v Hv]; discriminate | lia].
Qed.

Lemma engine_registry_positive_witness :
  map_Forall (fun _ v => (0 < v)%Z) ({["rb2505" := 1%Z]} : gmap string Z) /\
  (Subs.get {["rb2505" := 1%Z]} "rb2505" + 1 <= GoInt.int_max)%Z /\
  map_Forall (fun _ v => (0 < v)%Z) (Subs.RemoveSubscription {["rb2505" := 1%Z]} "rb2505").1.
Proof.
  assert (Hp : map_Forall (fun _ v => (0 < v)%Z) ({["rb2505" := 1%Z]} : gmap string Z)).
  { apply map_Forall_singleton. lia. }
  assert (Hb : (Subs.get {["rb2505" := 1%Z]} "rb2505" + 1 <= GoInt.int_max)%Z)
    by (vm_compute; discriminate).
  split; [exact Hp |]. split; [exact Hb |].
  exact (proj1 (proj2 (engine_registry_positive _ "rb2505" Hp Hb))).
Defined.
